(** * TerminalChatWidget: a shallow embedding

    Source: src/vs/workbench/contrib/terminalContrib/chat/browser/terminalChatWidget.ts

    The widget is a class whose methods mutate its own fields and call into
    platform services.  Every method is embedded as a function on an explicit
    widget state; the one asynchronous step (the [then] continuation of
    [_getTextModel]) is a queue of pending continuations that a separate
    event drains.  Platform classes that the file only imports (the code
    editor, the inline chat widget, the context-key service, the model
    service) appear as records that hold exactly what the widget passes to
    them. *)

From stdpp Require Import base strings list gmap pretty.

Open Scope string_scope.
Open Scope Z_scope.

(** ** JavaScript values *)

Module Js.

(** A completion record: a call returns normally or throws. *)
Inductive Completion (A : Type) : Type :=
| Normal (a : A)
| Throw (e : string).
Arguments Normal {A} a.
Arguments Throw {A} e.

Definition bind {A B} (c : Completion A) (k : A -> Completion B) : Completion B :=
  match c with
  | Normal a => k a
  | Throw e => Throw e
  end.

(** Member access [o.m] on a value that may be [undefined] or [null]. *)
Definition member {A} (o : option A) : Completion A :=
  match o with
  | Some a => Normal a
  | None => Throw "TypeError"
  end.

(** Truthiness of an object reference: only [undefined]/[null] is falsy. *)
Definition truthy {A} (o : option A) : bool :=
  match o with
  | Some _ => true
  | None => false
  end.

(** Truthiness of an optional string: [undefined] and [''] are falsy. *)
Definition truthy_string (o : option string) : bool :=
  match o with
  | Some v => negb (String.eqb v "")
  | None => false
  end.

(** [o ?? d] *)
Definition nullish {A} (o : option A) (d : A) : A :=
  match o with
  | Some a => a
  | None => d
  end.

End Js.

#[global] Instance Completion_bind : MBind Js.Completion :=
  fun A B k c => Js.bind c k.

(** ** DOM elements *)

Module Dom.

(** The nodes this file creates or receives. *)
Inductive Node : Type :=
| HostContainer          (* the [_container] handed to the constructor *)
| WidgetContainer        (* [_widgetContainer] *)
| ResponseElement        (* [_responseElement] *)
| FakeParentEditorElement
| InlineChatDomNode.     (* [_inlineChatWidget.domNode] *)

#[global] Instance Node_eq_dec : EqDecision Node.
Proof. solve_decision. Defined.

Record HTMLElement : Type := mkElement {
  classList : list string;
  textContent : string;
  children : list Node
}.

(** [document.createElement('div')] *)
Definition createElement : HTMLElement :=
  {| classList := []; textContent := ""; children := [] |}.

(** [DOMTokenList.contains] *)
Definition contains (token : string) (e : HTMLElement) : bool :=
  bool_decide (token ∈ classList e).

(** [DOMTokenList.add]: a token already present is not added again. *)
Definition classList_add (token : string) (e : HTMLElement) : HTMLElement :=
  {| classList := if contains token e then classList e else classList e ++ [token];
     textContent := textContent e;
     children := children e |}.

(** [DOMTokenList.remove(...tokens)] *)
Definition classList_remove (tokens : list string) (e : HTMLElement) : HTMLElement :=
  {| classList := filter (fun t => t ∉ tokens) (classList e);
     textContent := textContent e;
     children := children e |}.

(** [e.textContent = text]: the children are replaced by one text node. *)
Definition set_textContent (text : string) (e : HTMLElement) : HTMLElement :=
  {| classList := classList e; textContent := text; children := [] |}.

Definition appendChild (n : Node) (e : HTMLElement) : HTMLElement :=
  {| classList := classList e; textContent := textContent e;
     children := children e ++ [n] |}.

Definition prepend (n : Node) (e : HTMLElement) : HTMLElement :=
  {| classList := classList e; textContent := textContent e;
     children := n :: children e |}.

Record Dimension : Type := mkDimension { width : Z; height : Z }.

Record IFocusTracker : Type := trackFocus { tracked : Node }.

End Dom.

(** ** Context keys *)

Module ContextKey.

(** The two services the constructor has in hand: the one injected into
    it and the child it creates with [createScoped]. *)
Inductive Service : Type :=
| Injected
| Scoped.

#[global] Instance Service_eq_dec : EqDecision Service.
Proof. solve_decision. Defined.

(** Modelled from the spec: the context-key state store is not part of
    this file.  A service holds its own values; the injected service may
    itself have ancestors ([inherited], nearest first), and the scoped
    child created over a DOM node has the injected service as parent. *)
Record Store : Type := mkStore {
  injectedValues : gmap string bool;
  inherited : list (gmap string bool);
  scopedTarget : option Dom.Node;
  scopedValues : gmap string bool
}.

(** Modelled from the spec: [IContextKeyService.createScoped(target)]
    opens an empty namespace over [target]. *)
Definition createScoped (target : Dom.Node) (st : Store) : Service * Store :=
  (Scoped,
   {| injectedValues := injectedValues st; inherited := inherited st;
      scopedTarget := Some target; scopedValues := ∅ |}).

(** Modelled from the spec: a declared key as in [TerminalContextKeys],
    which this file imports; only its name matters here. *)
Record RawContextKey : Type := mkRaw { key : string }.

(** [IContextKey<boolean>]: a key bound to one service. *)
Record IContextKey : Type := mkKey {
  boundTo : Service;
  name : string
}.

Definition setContext (sv : Service) (k : string) (v : bool) (st : Store) : Store :=
  match sv with
  | Injected =>
      {| injectedValues := <[k := v]> (injectedValues st); inherited := inherited st;
         scopedTarget := scopedTarget st; scopedValues := scopedValues st |}
  | Scoped =>
      {| injectedValues := injectedValues st; inherited := inherited st;
         scopedTarget := scopedTarget st; scopedValues := <[k := v]> (scopedValues st) |}
  end.

(** Modelled from the spec: [RawContextKey.bindTo(service)] gives the
    handle through which the key is written in [service]. *)
Definition bindTo (raw : RawContextKey) (sv : Service) : IContextKey :=
  {| boundTo := sv; name := key raw |}.

(** [IContextKey.set(value)] *)
Definition set (k : IContextKey) (v : bool) (st : Store) : Store :=
  setContext (boundTo k) (name k) v st.

Fixpoint lookup_chain (k : string) (chain : list (gmap string bool)) : option bool :=
  match chain with
  | [] => None
  | m :: rest =>
      match m !! k with
      | Some v => Some v
      | None => lookup_chain k rest
      end
  end.

(** Modelled from the spec: [getContextKeyValue] as seen from a service:
    its own value, else the nearest ancestor's. *)
Definition getContextKeyValue (sv : Service) (k : string) (st : Store) : option bool :=
  match sv with
  | Injected => lookup_chain k (injectedValues st :: inherited st)
  | Scoped => lookup_chain k (scopedValues st :: injectedValues st :: inherited st)
  end.

(** [IContextKey.get()] *)
Definition get (k : IContextKey) (st : Store) : option bool :=
  getContextKeyValue (boundTo k) (name k) st.

End ContextKey.

(** ** Text models and the model service *)

Module Model.

Record URI : Type := mkURI {
  scheme : string;
  path : string;
  fragment : string
}.

#[global] Instance URI_eq_dec : EqDecision URI.
Proof. solve_decision. Defined.

Record ITextModel : Type := mkModel {
  uri : URI;
  value : string;
  isDisposed : bool
}.

(** Modelled from the spec: the document service is not part of this
    file.  It is a registry of documents, most recent first. *)
Definition IModelService : Type := list ITextModel.

(** Modelled from the spec: [IModelService.getModel(resource)] *)
Definition getModel (resource : URI) (ms : IModelService) : option ITextModel :=
  List.find (fun m => bool_decide (uri m = resource)) ms.

(** Modelled from the spec: [IModelService.createModel(value, null, resource, false)] *)
Definition createModel (v : string) (resource : URI) (ms : IModelService)
  : ITextModel * IModelService :=
  let m := {| uri := resource; value := v; isDisposed := false |} in
  (m, m :: ms).

End Model.

(** ** The widgets this file instantiates *)

Module Editor.

(** The instantiation service: what matters here is which context-key
    service it hands to the objects it creates. *)
Record IInstantiationService : Type := mkInstantiation {
  contextKeyService : ContextKey.Service
}.

(** [instantiationService.createChild(new ServiceCollection([IContextKeyService, sv]))] *)
Definition createChild (sv : ContextKey.Service) (_ : IInstantiationService)
  : IInstantiationService :=
  {| contextKeyService := sv |}.

Record EditorOptions : Type := mkOptions {
  extraEditorClassName : option string;
  isSimpleWidget : bool
}.

(** The calls this file makes on a code editor. *)
Inductive Call : Type :=
| SetModel (model : Model.ITextModel)
| Layout (dimension : Dom.Dimension)
| SetValue (newValue : string).

(** [CodeEditorWidget]: the editor is not part of this file, so an
    instance is what it was created with and the calls it has received,
    oldest first. *)
Record CodeEditorWidget : Type := mkEditor {
  editorId : nat;
  domElement : Dom.Node;
  options : EditorOptions;
  services : ContextKey.Service;
  calls : list Call
}.

Definition receive (c : Call) (w : CodeEditorWidget) : CodeEditorWidget :=
  {| editorId := editorId w; domElement := domElement w; options := options w;
     services := services w; calls := calls w ++ [c] |}.

Definition setModel (m : Model.ITextModel) := receive (SetModel m).
Definition layout (d : Dom.Dimension) := receive (Layout d).
Definition setValue (v : string) := receive (SetValue v).

(** Modelled from the spec: the document a viewer is bound to is the one
    of the last [setModel] it received. *)
Definition boundModel (w : CodeEditorWidget) : option Model.ITextModel :=
  fold_left (fun acc c => match c with SetModel m => Some m | _ => acc end)
            (calls w) None.

(** Modelled from the spec: the text a viewer shows.  Binding a document
    shows the document's text; [setValue] replaces the text content. *)
Definition text (w : CodeEditorWidget) : option string :=
  fold_left (fun acc c =>
               match c with
               | SetModel m => Some (Model.value m)
               | SetValue v => Some v
               | Layout _ => acc
               end)
            (calls w) None.

Inductive MenuId : Type :=
| MENU_TERMINAL_CHAT_INPUT
| MENU_TERMINAL_CHAT_WIDGET
| MENU_TERMINAL_CHAT_WIDGET_STATUS
| MENU_TERMINAL_CHAT_WIDGET_FEEDBACK.

Record InlineChatOptions : Type := mkChatOptions {
  menuId : MenuId;
  widgetMenuId : MenuId;
  statusMenuId : MenuId;
  feedbackMenuId : MenuId
}.

(** [InlineChatWidget]: not part of this file.  Modelled from the spec:
    [value] is the text of the input, read and written as a property;
    the other fields record what the widget was handed. *)
Record InlineChatWidget : Type := mkInlineChat {
  parentEditor : CodeEditorWidget;
  chatOptions : InlineChatOptions;
  chatServices : ContextKey.Service;
  value : string;
  placeholder : string;
  info : string;
  dimension : option Dom.Dimension;
  progress : list bool       (* arguments of [updateProgress], oldest first *)
}.

Definition set_value (v : string) (w : InlineChatWidget) : InlineChatWidget :=
  {| parentEditor := parentEditor w; chatOptions := chatOptions w;
     chatServices := chatServices w; value := v; placeholder := placeholder w;
     info := info w; dimension := dimension w; progress := progress w |}.

Definition set_placeholder (p : string) (w : InlineChatWidget) : InlineChatWidget :=
  {| parentEditor := parentEditor w; chatOptions := chatOptions w;
     chatServices := chatServices w; value := value w; placeholder := p;
     info := info w; dimension := dimension w; progress := progress w |}.

Definition updateInfo (i : string) (w : InlineChatWidget) : InlineChatWidget :=
  {| parentEditor := parentEditor w; chatOptions := chatOptions w;
     chatServices := chatServices w; value := value w; placeholder := placeholder w;
     info := i; dimension := dimension w; progress := progress w |}.

Definition chat_layout (d : Dom.Dimension) (w : InlineChatWidget) : InlineChatWidget :=
  {| parentEditor := parentEditor w; chatOptions := chatOptions w;
     chatServices := chatServices w; value := value w; placeholder := placeholder w;
     info := info w; dimension := Some d; progress := progress w |}.

Definition updateProgress (b : bool) (w : InlineChatWidget) : InlineChatWidget :=
  {| parentEditor := parentEditor w; chatOptions := chatOptions w;
     chatServices := chatServices w; value := value w; placeholder := placeholder w;
     info := info w; dimension := dimension w; progress := progress w ++ [b] |}.

End Editor.

(** [IChatProgress]: a union discriminated by [kind]. *)
Record IChatProgress : Type := mkProgress { kind : string }.

Record ITerminalInstance : Type := mkInstance { instanceId : nat }.

(** Who holds the input focus. *)
Inductive Focus : Type :=
| FocusElsewhere
| FocusInlineChat
| FocusTerminal.

(** ** The widget *)

(** The fields of the class, followed by the part of the environment its
    methods act on. *)
Record TerminalChatWidget : Type := mkWidget {
  _container : Dom.HTMLElement;
  _instance : ITerminalInstance;
  _contextKeyService : ContextKey.Store;   (* the injected service and its scoped child *)
  _chatAccessibilityService : list (string * Z);   (* [acceptResponse] calls, oldest first *)
  _modelService : Model.IModelService;
  _scopedInstantiationService : Editor.IInstantiationService;
  _widgetContainer : Dom.HTMLElement;
  _chatWidgetFocused : ContextKey.IContextKey;
  _chatWidgetVisible : ContextKey.IContextKey;
  _inlineChatWidget : Editor.InlineChatWidget;
  _responseWidget : option Editor.CodeEditorWidget;
  _responseElement : Dom.HTMLElement;
  _focusTracker : Dom.IFocusTracker;
  instantiated : list Editor.CodeEditorWidget;   (* code editors created so far, oldest first *)
  microtasks : list (option Model.ITextModel);   (* resolved [_getTextModel] promises whose [then] has not run *)
  activeElement : Focus;
  unhandledRejections : list string
}.

(** Field assignment [this.f = v], one function per assigned field. *)
Definition set_contextKeyService (v : ContextKey.Store) (s : TerminalChatWidget) : TerminalChatWidget :=
  {| _container := _container s; _instance := _instance s; _contextKeyService := v;
     _chatAccessibilityService := _chatAccessibilityService s;
     _modelService := _modelService s;
     _scopedInstantiationService := _scopedInstantiationService s;
     _widgetContainer := _widgetContainer s;
     _chatWidgetFocused := _chatWidgetFocused s;
     _chatWidgetVisible := _chatWidgetVisible s;
     _inlineChatWidget := _inlineChatWidget s; _responseWidget := _responseWidget s;
     _responseElement := _responseElement s; _focusTracker := _focusTracker s;
     instantiated := instantiated s; microtasks := microtasks s;
     activeElement := activeElement s; unhandledRejections := unhandledRejections s |}.

Definition set_chatAccessibilityService (v : list (string * Z)) (s : TerminalChatWidget) : TerminalChatWidget :=
  {| _container := _container s; _instance := _instance s;
     _contextKeyService := _contextKeyService s; _chatAccessibilityService := v;
     _modelService := _modelService s;
     _scopedInstantiationService := _scopedInstantiationService s;
     _widgetContainer := _widgetContainer s;
     _chatWidgetFocused := _chatWidgetFocused s;
     _chatWidgetVisible := _chatWidgetVisible s;
     _inlineChatWidget := _inlineChatWidget s; _responseWidget := _responseWidget s;
     _responseElement := _responseElement s; _focusTracker := _focusTracker s;
     instantiated := instantiated s; microtasks := microtasks s;
     activeElement := activeElement s; unhandledRejections := unhandledRejections s |}.

Definition set_modelService (v : Model.IModelService) (s : TerminalChatWidget) : TerminalChatWidget :=
  {| _container := _container s; _instance := _instance s;
     _contextKeyService := _contextKeyService s;
     _chatAccessibilityService := _chatAccessibilityService s; _modelService := v;
     _scopedInstantiationService := _scopedInstantiationService s;
     _widgetContainer := _widgetContainer s;
     _chatWidgetFocused := _chatWidgetFocused s;
     _chatWidgetVisible := _chatWidgetVisible s;
     _inlineChatWidget := _inlineChatWidget s; _responseWidget := _responseWidget s;
     _responseElement := _responseElement s; _focusTracker := _focusTracker s;
     instantiated := instantiated s; microtasks := microtasks s;
     activeElement := activeElement s; unhandledRejections := unhandledRejections s |}.

Definition set_widgetContainer (v : Dom.HTMLElement) (s : TerminalChatWidget) : TerminalChatWidget :=
  {| _container := _container s; _instance := _instance s;
     _contextKeyService := _contextKeyService s;
     _chatAccessibilityService := _chatAccessibilityService s;
     _modelService := _modelService s;
     _scopedInstantiationService := _scopedInstantiationService s;
     _widgetContainer := v; _chatWidgetFocused := _chatWidgetFocused s;
     _chatWidgetVisible := _chatWidgetVisible s;
     _inlineChatWidget := _inlineChatWidget s; _responseWidget := _responseWidget s;
     _responseElement := _responseElement s; _focusTracker := _focusTracker s;
     instantiated := instantiated s; microtasks := microtasks s;
     activeElement := activeElement s; unhandledRejections := unhandledRejections s |}.

Definition set_inlineChatWidget (v : Editor.InlineChatWidget) (s : TerminalChatWidget) : TerminalChatWidget :=
  {| _container := _container s; _instance := _instance s;
     _contextKeyService := _contextKeyService s;
     _chatAccessibilityService := _chatAccessibilityService s;
     _modelService := _modelService s;
     _scopedInstantiationService := _scopedInstantiationService s;
     _widgetContainer := _widgetContainer s;
     _chatWidgetFocused := _chatWidgetFocused s;
     _chatWidgetVisible := _chatWidgetVisible s; _inlineChatWidget := v;
     _responseWidget := _responseWidget s; _responseElement := _responseElement s;
     _focusTracker := _focusTracker s; instantiated := instantiated s;
     microtasks := microtasks s; activeElement := activeElement s;
     unhandledRejections := unhandledRejections s |}.

Definition set_responseWidget (v : option Editor.CodeEditorWidget) (s : TerminalChatWidget) : TerminalChatWidget :=
  {| _container := _container s; _instance := _instance s;
     _contextKeyService := _contextKeyService s;
     _chatAccessibilityService := _chatAccessibilityService s;
     _modelService := _modelService s;
     _scopedInstantiationService := _scopedInstantiationService s;
     _widgetContainer := _widgetContainer s;
     _chatWidgetFocused := _chatWidgetFocused s;
     _chatWidgetVisible := _chatWidgetVisible s;
     _inlineChatWidget := _inlineChatWidget s; _responseWidget := v;
     _responseElement := _responseElement s; _focusTracker := _focusTracker s;
     instantiated := instantiated s; microtasks := microtasks s;
     activeElement := activeElement s; unhandledRejections := unhandledRejections s |}.

Definition set_responseElement (v : Dom.HTMLElement) (s : TerminalChatWidget) : TerminalChatWidget :=
  {| _container := _container s; _instance := _instance s;
     _contextKeyService := _contextKeyService s;
     _chatAccessibilityService := _chatAccessibilityService s;
     _modelService := _modelService s;
     _scopedInstantiationService := _scopedInstantiationService s;
     _widgetContainer := _widgetContainer s;
     _chatWidgetFocused := _chatWidgetFocused s;
     _chatWidgetVisible := _chatWidgetVisible s;
     _inlineChatWidget := _inlineChatWidget s; _responseWidget := _responseWidget s;
     _responseElement := v; _focusTracker := _focusTracker s;
     instantiated := instantiated s; microtasks := microtasks s;
     activeElement := activeElement s; unhandledRejections := unhandledRejections s |}.

Definition set_instantiated (v : list Editor.CodeEditorWidget) (s : TerminalChatWidget) : TerminalChatWidget :=
  {| _container := _container s; _instance := _instance s;
     _contextKeyService := _contextKeyService s;
     _chatAccessibilityService := _chatAccessibilityService s;
     _modelService := _modelService s;
     _scopedInstantiationService := _scopedInstantiationService s;
     _widgetContainer := _widgetContainer s;
     _chatWidgetFocused := _chatWidgetFocused s;
     _chatWidgetVisible := _chatWidgetVisible s;
     _inlineChatWidget := _inlineChatWidget s; _responseWidget := _responseWidget s;
     _responseElement := _responseElement s; _focusTracker := _focusTracker s;
     instantiated := v; microtasks := microtasks s; activeElement := activeElement s;
     unhandledRejections := unhandledRejections s |}.

Definition set_microtasks (v : list (option Model.ITextModel)) (s : TerminalChatWidget) : TerminalChatWidget :=
  {| _container := _container s; _instance := _instance s;
     _contextKeyService := _contextKeyService s;
     _chatAccessibilityService := _chatAccessibilityService s;
     _modelService := _modelService s;
     _scopedInstantiationService := _scopedInstantiationService s;
     _widgetContainer := _widgetContainer s;
     _chatWidgetFocused := _chatWidgetFocused s;
     _chatWidgetVisible := _chatWidgetVisible s;
     _inlineChatWidget := _inlineChatWidget s; _responseWidget := _responseWidget s;
     _responseElement := _responseElement s; _focusTracker := _focusTracker s;
     instantiated := instantiated s; microtasks := v; activeElement := activeElement s;
     unhandledRejections := unhandledRejections s |}.

Definition set_activeElement (v : Focus) (s : TerminalChatWidget) : TerminalChatWidget :=
  {| _container := _container s; _instance := _instance s;
     _contextKeyService := _contextKeyService s;
     _chatAccessibilityService := _chatAccessibilityService s;
     _modelService := _modelService s;
     _scopedInstantiationService := _scopedInstantiationService s;
     _widgetContainer := _widgetContainer s;
     _chatWidgetFocused := _chatWidgetFocused s;
     _chatWidgetVisible := _chatWidgetVisible s;
     _inlineChatWidget := _inlineChatWidget s; _responseWidget := _responseWidget s;
     _responseElement := _responseElement s; _focusTracker := _focusTracker s;
     instantiated := instantiated s; microtasks := microtasks s; activeElement := v;
     unhandledRejections := unhandledRejections s |}.

Definition set_unhandledRejections (v : list string) (s : TerminalChatWidget) : TerminalChatWidget :=
  {| _container := _container s; _instance := _instance s;
     _contextKeyService := _contextKeyService s;
     _chatAccessibilityService := _chatAccessibilityService s;
     _modelService := _modelService s;
     _scopedInstantiationService := _scopedInstantiationService s;
     _widgetContainer := _widgetContainer s;
     _chatWidgetFocused := _chatWidgetFocused s;
     _chatWidgetVisible := _chatWidgetVisible s;
     _inlineChatWidget := _inlineChatWidget s; _responseWidget := _responseWidget s;
     _responseElement := _responseElement s; _focusTracker := _focusTracker s;
     instantiated := instantiated s; microtasks := microtasks s;
     activeElement := activeElement s; unhandledRejections := v |}.

(** [TerminalContextKeys.chatFocused] and [TerminalContextKeys.chatVisible]
    are declared in a file this one imports; they are taken as given. *)
Record TerminalContextKeys : Type := mkKeys {
  chatFocused : ContextKey.RawContextKey;
  chatVisible : ContextKey.RawContextKey
}.

(** [instantiationService.createInstance(CodeEditorWidget, element, options, widgetOptions)] *)
Definition createCodeEditor (inst : Editor.IInstantiationService) (element : Dom.Node)
    (opts : Editor.EditorOptions) (s : TerminalChatWidget)
  : Editor.CodeEditorWidget * TerminalChatWidget :=
  let w := {| Editor.editorId := length (instantiated s);
              Editor.domElement := element;
              Editor.options := opts;
              Editor.services := Editor.contextKeyService inst;
              Editor.calls := [] |} in
  (w, set_instantiated (instantiated s ++ [w]) s).

(** [constructor(_container, _instance, instantiationService,
    _contextKeyService, _chatAccessibilityService, _modelService)];
    [focus] is whoever holds the input focus at that moment. *)
Definition construct (keys : TerminalContextKeys)
    (container : Dom.HTMLElement) (instance : ITerminalInstance)
    (instantiationService : Editor.IInstantiationService)
    (contextKeyService : ContextKey.Store)
    (chatAccessibilityService : list (string * Z))
    (modelService : Model.IModelService) (focus : Focus) : TerminalChatWidget :=
  let '(scopedContextKeyService, store) :=
    ContextKey.createScoped Dom.HostContainer contextKeyService in
  let scopedInstantiationService :=
    Editor.createChild scopedContextKeyService instantiationService in
  let chatWidgetFocused := ContextKey.bindTo (chatFocused keys) ContextKey.Injected in
  let chatWidgetVisible := ContextKey.bindTo (chatVisible keys) ContextKey.Injected in
  let widgetContainer := Dom.classList_add "terminal-inline-chat" Dom.createElement in
  let container := Dom.appendChild Dom.WidgetContainer container in
  let responseElement :=
    Dom.classList_add "terminal-inline-chat-response" Dom.createElement in
  let widgetContainer := Dom.prepend Dom.ResponseElement widgetContainer in
  let fakeParentEditor :=
    {| Editor.editorId := 0%nat;
       Editor.domElement := Dom.FakeParentEditorElement;
       Editor.options := {| Editor.extraEditorClassName := Some "ignore-panel-bg";
                            Editor.isSimpleWidget := true |};
       Editor.services := Editor.contextKeyService scopedInstantiationService;
       Editor.calls := [] |} in
  let inlineChatWidget :=
    {| Editor.parentEditor := fakeParentEditor;
       Editor.chatOptions :=
         {| Editor.menuId := Editor.MENU_TERMINAL_CHAT_INPUT;
            Editor.widgetMenuId := Editor.MENU_TERMINAL_CHAT_WIDGET;
            Editor.statusMenuId := Editor.MENU_TERMINAL_CHAT_WIDGET_STATUS;
            Editor.feedbackMenuId := Editor.MENU_TERMINAL_CHAT_WIDGET_FEEDBACK |};
       Editor.chatServices := Editor.contextKeyService scopedInstantiationService;
       Editor.value := "";
       Editor.placeholder := "";
       Editor.info := "";
       Editor.dimension := None;
       Editor.progress := [] |} in
  let inlineChatWidget :=
    Editor.set_placeholder "Ask how to do something in the terminal" inlineChatWidget in
  let inlineChatWidget :=
    Editor.updateInfo "AI-generated code may be incorrect" inlineChatWidget in
  let widgetContainer := Dom.appendChild Dom.InlineChatDomNode widgetContainer in
  {| _container := container;
     _instance := instance;
     _contextKeyService := store;
     _chatAccessibilityService := chatAccessibilityService;
     _modelService := modelService;
     _scopedInstantiationService := scopedInstantiationService;
     _widgetContainer := widgetContainer;
     _chatWidgetFocused := chatWidgetFocused;
     _chatWidgetVisible := chatWidgetVisible;
     _inlineChatWidget := inlineChatWidget;
     _responseWidget := None;
     _responseElement := responseElement;
     _focusTracker := Dom.trackFocus Dom.WidgetContainer;
     instantiated := [fakeParentEditor];
     microtasks := [];
     activeElement := focus;
     unhandledRejections := [] |}.

(** [this._chatAccessibilityService.acceptResponse(response, requestId)] *)
Definition acceptResponse (response : string) (requestId : Z) (s : TerminalChatWidget)
  : TerminalChatWidget :=
  set_chatAccessibilityService (_chatAccessibilityService s ++ [(response, requestId)]) s.

(** [URI.from({ path: `terminal-inline-chat-${this._instance.instanceId}`,
                scheme: 'terminal-inline-chat', fragment: codeBlock })] *)
Definition responseUri (instance : ITerminalInstance) (codeBlock : string) : Model.URI :=
  {| Model.path := "terminal-inline-chat-" ++ pretty (instanceId instance);
     Model.scheme := "terminal-inline-chat";
     Model.fragment := codeBlock |}.

(** [_getTextModel(resource)].  The function is [async] but has no
    [await]: its body runs at the call, and what is deferred is the [then]
    continuation of the promise it returns. *)
Definition _getTextModel (resource : Model.URI) (s : TerminalChatWidget)
  : option Model.ITextModel * TerminalChatWidget :=
  let existing := Model.getModel resource (_modelService s) in
  match existing with
  | Some m =>
      if negb (Model.isDisposed m) then (Some m, s)
      else
        let '(m', ms) := Model.createModel (Model.fragment resource) resource (_modelService s) in
        (Some m', set_modelService ms s)
  | None =>
      let '(m', ms) := Model.createModel (Model.fragment resource) resource (_modelService s) in
      (Some m', set_modelService ms s)
  end.

(** The [then] continuation in [renderTerminalCommand]:
    [(model) => { if (!model || !this._responseWidget) { return; }
                  this._responseWidget.setModel(model);
                  this._responseWidget.layout(new Dimension(400, 150)); }] *)
Definition onModelResolved (model : option Model.ITextModel) (s : TerminalChatWidget)
  : Js.Completion TerminalChatWidget :=
  if negb (Js.truthy model) || negb (Js.truthy (_responseWidget s)) then Js.Normal s
  else
    m ← Js.member model;
    w ← Js.member (_responseWidget s);
    let s := set_responseWidget (Some (Editor.setModel m w)) s in
    w ← Js.member (_responseWidget s);
    Js.Normal (set_responseWidget (Some (Editor.layout (Dom.mkDimension 400 150) w)) s).

Definition renderTerminalCommand (codeBlock : string) (requestId : Z)
    (s : TerminalChatWidget) : TerminalChatWidget :=
  let s := set_responseElement
             (Dom.classList_remove ["message"; "hide"] (_responseElement s)) s in
  let s := acceptResponse codeBlock requestId s in
  match _responseWidget s with
  | None =>
      let '(w, s) := createCodeEditor (_scopedInstantiationService s) Dom.ResponseElement
                       {| Editor.extraEditorClassName := None;
                          Editor.isSimpleWidget := true |} s in
      let s := set_responseWidget (Some w) s in
      let '(model, s) := _getTextModel (responseUri (_instance s) codeBlock) s in
      set_microtasks (microtasks s ++ [model]) s
  | Some w =>
      set_responseWidget (Some (Editor.setValue codeBlock w)) s
  end.

Definition renderMessage (message : string) (requestId : Z)
    (s : TerminalChatWidget) : TerminalChatWidget :=
  let s := set_responseElement (Dom.classList_remove ["hide"] (_responseElement s)) s in
  let s := set_responseElement (Dom.classList_add "message" (_responseElement s)) s in
  let s := acceptResponse message requestId s in
  set_responseElement (Dom.set_textContent message (_responseElement s)) s.

Definition reveal (s : TerminalChatWidget) : TerminalChatWidget :=
  let s := set_inlineChatWidget
             (Editor.chat_layout (Dom.mkDimension 400 150) (_inlineChatWidget s)) s in
  let s := set_widgetContainer (Dom.classList_remove ["hide"] (_widgetContainer s)) s in
  let s := set_contextKeyService
             (ContextKey.set (_chatWidgetFocused s) true (_contextKeyService s)) s in
  let s := set_contextKeyService
             (ContextKey.set (_chatWidgetVisible s) true (_contextKeyService s)) s in
  set_activeElement FocusInlineChat s.

Definition hide (s : TerminalChatWidget) : TerminalChatWidget :=
  let s := set_responseElement (Dom.classList_add "hide" (_responseElement s)) s in
  let s := set_widgetContainer (Dom.classList_add "hide" (_widgetContainer s)) s in
  let s := set_contextKeyService
             (ContextKey.set (_chatWidgetFocused s) false (_contextKeyService s)) s in
  let s := set_contextKeyService
             (ContextKey.set (_chatWidgetVisible s) false (_contextKeyService s)) s in
  set_activeElement FocusTerminal s.

Definition cancel (s : TerminalChatWidget) : TerminalChatWidget :=
  set_inlineChatWidget (Editor.set_value "" (_inlineChatWidget s)) s.

Definition input (s : TerminalChatWidget) : string :=
  Editor.value (_inlineChatWidget s).

Definition setValue (value : option string) (s : TerminalChatWidget) : TerminalChatWidget :=
  let s := set_inlineChatWidget
             (Editor.set_value (Js.nullish value "") (_inlineChatWidget s)) s in
  if negb (Js.truthy_string value)
  then set_responseElement (Dom.classList_add "hide" (_responseElement s)) s
  else s.

(** [progress?.kind === 'content' || progress?.kind === 'markdownContent'] *)
Definition isTextualProgress (progress : option IChatProgress) : bool :=
  match progress with
  | Some p => String.eqb (kind p) "content" || String.eqb (kind p) "markdownContent"
  | None => false
  end.

Definition updateProgress (progress : option IChatProgress) (s : TerminalChatWidget)
  : TerminalChatWidget :=
  set_inlineChatWidget
    (Editor.updateProgress (isTextualProgress progress) (_inlineChatWidget s)) s.

(** [layout(width)]: the body is commented out. *)
Definition layout (width : Z) (s : TerminalChatWidget) : TerminalChatWidget := s.

Definition focusTracker (s : TerminalChatWidget) : Dom.IFocusTracker := _focusTracker s.

(** ** Runs of the widget *)

(** The event loop runs the oldest pending continuation.  An error that
    escapes it becomes an unhandled rejection. *)
Definition runMicrotask (s : TerminalChatWidget) : TerminalChatWidget :=
  match microtasks s with
  | [] => s
  | model :: rest =>
      let s := set_microtasks rest s in
      match onModelResolved model s with
      | Js.Normal s' => s'
      | Js.Throw e => set_unhandledRejections (unhandledRejections s ++ [e]) s
      end
  end.

(** What can happen to a constructed widget: a public method is called, or
    the event loop resumes a pending continuation. *)
Inductive Op : Type :=
| RenderTerminalCommand (codeBlock : string) (requestId : Z)
| RenderMessage (message : string) (requestId : Z)
| Reveal
| Hide
| Cancel
| SetValue (value : option string)
| UpdateProgress (progress : option IChatProgress)
| DoLayout (width : Z)
| Resume.

Definition step (o : Op) (s : TerminalChatWidget) : TerminalChatWidget :=
  match o with
  | RenderTerminalCommand c r => renderTerminalCommand c r s
  | RenderMessage m r => renderMessage m r s
  | Reveal => reveal s
  | Hide => hide s
  | Cancel => cancel s
  | SetValue v => setValue v s
  | UpdateProgress p => updateProgress p s
  | DoLayout w => layout w s
  | Resume => runMicrotask s
  end.

Fixpoint run (ops : list Op) (s : TerminalChatWidget) : TerminalChatWidget :=
  match ops with
  | [] => s
  | o :: rest => run rest (step o s)
  end.

(** ** What the claims observe *)

(** An element is hidden when its class list holds ['hide']. *)
Definition hidden (e : Dom.HTMLElement) : bool := Dom.contains "hide" e.

(** The response container is in message mode when it holds ['message']. *)
Definition messageMode (e : Dom.HTMLElement) : bool := Dom.contains "message" e.

(** The value of the "chat focused" key, read through its handle. *)
Definition chatFocusedFlag (s : TerminalChatWidget) : option bool :=
  ContextKey.get (_chatWidgetFocused s) (_contextKeyService s).

(** The value of the "chat visible" key, read through its handle. *)
Definition chatVisibleFlag (s : TerminalChatWidget) : option bool :=
  ContextKey.get (_chatWidgetVisible s) (_contextKeyService s).

(** Flags and DOM agree: both flags say "shown" exactly when the widget
    container is not hidden. *)
Definition consistent (s : TerminalChatWidget) : Prop :=
  chatFocusedFlag s = Some (negb (hidden (_widgetContainer s))) /\
  chatVisibleFlag s = Some (negb (hidden (_widgetContainer s))).

(** The part of the state that [consistent] reads. *)
Definition visibility (s : TerminalChatWidget) :=
  (_contextKeyService s, _chatWidgetFocused s, _chatWidgetVisible s, _widgetContainer s).

(** The code editors created over the response container. *)
Definition responseViewers (s : TerminalChatWidget) : list Editor.CodeEditorWidget :=
  filter (fun w => Editor.domElement w = Dom.ResponseElement) (instantiated s).

(** The code blocks of the [renderTerminalCommand] calls of a run, in order. *)
Fixpoint rendered (ops : list Op) : list string :=
  match ops with
  | [] => []
  | RenderTerminalCommand c _ :: rest => c :: rendered rest
  | _ :: rest => rendered rest
  end.

(** The repeated [setValue] calls of later renders on one viewer. *)
Definition setValues (codeBlocks : list string) (w : Editor.CodeEditorWidget)
  : Editor.CodeEditorWidget :=
  fold_left (fun w c => Editor.setValue c w) codeBlocks w.

(** [w'] is the editor instance [w], possibly after further calls on it. *)
Definition sameViewer (w w' : Editor.CodeEditorWidget) : Prop :=
  Editor.editorId w' = Editor.editorId w /\
  Editor.domElement w' = Editor.domElement w /\
  Editor.options w' = Editor.options w /\
  Editor.services w' = Editor.services w /\
  exists later, Editor.calls w' = (Editor.calls w ++ later)%list.

(** Both keys are written in the namespace created over the container. *)
Definition keysBoundToScoped (s : TerminalChatWidget) : Prop :=
  ContextKey.boundTo (_chatWidgetFocused s) = ContextKey.Scoped /\
  ContextKey.boundTo (_chatWidgetVisible s) = ContextKey.Scoped.

(** The fields that are assigned in the constructor and never again. *)
Definition wiring (s : TerminalChatWidget) :=
  (_instance s, _scopedInstantiationService s, _chatWidgetFocused s,
   _chatWidgetVisible s, _focusTracker s).

(** *** A concrete widget *)

Definition sampleKeys : TerminalContextKeys :=
  {| chatFocused := ContextKey.mkRaw "chatFocused";
     chatVisible := ContextKey.mkRaw "chatVisible" |}.

Definition sampleStore : ContextKey.Store :=
  {| ContextKey.injectedValues := ∅; ContextKey.inherited := [];
     ContextKey.scopedTarget := None; ContextKey.scopedValues := ∅ |}.

(** The widget of terminal 1, freshly constructed. *)
Definition sampleWidget : TerminalChatWidget :=
  construct sampleKeys Dom.createElement (mkInstance 1)
            (Editor.mkInstantiation ContextKey.Injected) sampleStore [] [] FocusTerminal.

(** The document that the first render of ["echo hi"] resolves to. *)
Definition sampleModel : Model.ITextModel :=
  {| Model.uri := responseUri (mkInstance 1) "echo hi";
     Model.value := "echo hi";
     Model.isDisposed := false |}.

(** [sampleWidget] after a first render whose viewer reference was then
    cleared, with the continuation still pending. *)
Definition tornDown : TerminalChatWidget :=
  set_responseWidget None (renderTerminalCommand "echo hi" 1 sampleWidget).

(** [sampleWidget] after its first render. *)
Definition afterFirstRender : TerminalChatWidget :=
  renderTerminalCommand "echo hi" 1 sampleWidget.

(** The viewer that this first render creates. *)
Definition sampleViewer : Editor.CodeEditorWidget :=
  {| Editor.editorId := 1%nat;
     Editor.domElement := Dom.ResponseElement;
     Editor.options := {| Editor.extraEditorClassName := None;
                          Editor.isSimpleWidget := true |};
     Editor.services := ContextKey.Scoped;
     Editor.calls := [] |}.

(** *** Summaries of a run *)

(** The [acceptResponse] notifications that the renders of a run make, in
    order. *)
Fixpoint responses (ops : list Op) : list (string * Z) :=
  match ops with
  | [] => []
  | RenderTerminalCommand c r :: rest => (c, r) :: responses rest
  | RenderMessage m r :: rest => (m, r) :: responses rest
  | _ :: rest => responses rest
  end.

(** The booleans that the [updateProgress] calls of a run forward. *)
Fixpoint forwarded (ops : list Op) : list bool :=
  match ops with
  | [] => []
  | UpdateProgress p :: rest => isTextualProgress p :: forwarded rest
  | _ :: rest => forwarded rest
  end.

(** The input text a run ends with: what its last [cancel] or [setValue]
    wrote, or the text it started with. *)
Fixpoint inputAfter (ops : list Op) (current : string) : string :=
  match ops with
  | [] => current
  | Cancel :: rest => inputAfter rest ""
  | SetValue v :: rest => inputAfter rest (Js.nullish v "")
  | _ :: rest => inputAfter rest current
  end.

(** A widget on which [reveal] or [hide] was the last to move the focus:
    the focus is in the inline chat exactly when the flags say "shown". *)
Definition focusFollowsFlags (s : TerminalChatWidget) : Prop :=
  (activeElement s = FocusInlineChat /\
   chatFocusedFlag s = Some true /\ chatVisibleFlag s = Some true) \/
  (activeElement s = FocusTerminal /\
   chatFocusedFlag s = Some false /\ chatVisibleFlag s = Some false).

(** The first render has not happened: no viewer, nothing pending. *)
Definition beforeFirstRender (s : TerminalChatWidget) : Prop :=
  _responseWidget s = None /\ microtasks s = [] /\ responseViewers s = [].

(** The first render has happened: one viewer, at most one continuation
    still pending. *)
Definition afterFirstRenderState (s : TerminalChatWidget) : Prop :=
  (exists w, _responseWidget s = Some w) /\
  (length (microtasks s) <= 1)%nat /\
  length (responseViewers s) = 1%nat.

(** The viewer's document is the one resolved for code block [c0]: the
    viewer is bound to it and nothing is pending, or the continuation
    that will bind it is the one thing pending. *)
Definition viewerDocument (c0 : string) (s : TerminalChatWidget) : Prop :=
  exists w m,
    _responseWidget s = Some w /\
    Model.uri m = responseUri (_instance s) c0 /\
    ((microtasks s = [] /\ Editor.boundModel w = Some m) \/
     (microtasks s = [Some m] /\ Editor.boundModel w = None)).

(** ** Helper lemmas *)

(** Unfold one step of the widget and split on what the state holds. *)
Ltac unfold_step :=
  unfold step, renderTerminalCommand, renderMessage, reveal, hide, cancel, setValue,
    updateProgress, layout, runMicrotask, onModelResolved, _getTextModel,
    acceptResponse, createCodeEditor; simpl.

Ltac split_step s :=
  unfold_step;
  repeat (match goal with
          | |- context [_responseWidget s] => destruct (_responseWidget s) eqn:?
          | |- context [microtasks s] => destruct (microtasks s) as [|[?|] ?] eqn:?
          | |- context [Model.getModel ?r ?m] =>
              destruct (Model.getModel r m) as [?|] eqn:?
          | |- context [Model.isDisposed ?m] => destruct (Model.isDisposed m) eqn:?
          | |- context [Js.truthy_string ?v] => destruct (Js.truthy_string v) eqn:?
          end; simpl).


Section ClassList.

Implicit Types (e : Dom.HTMLElement) (t : string).

Lemma contains_add t e : Dom.contains t (Dom.classList_add t e) = true.
Proof.
  unfold Dom.classList_add, Dom.contains at 1. simpl.
  destruct (Dom.contains t e) eqn:E.
  - exact E.
  - apply bool_decide_eq_true. apply elem_of_app. right. apply list_elem_of_singleton.
    reflexivity.
Qed.

Lemma contains_remove t tokens e :
  t ∈ tokens -> Dom.contains t (Dom.classList_remove tokens e) = false.
Proof.
  intros Hin. unfold Dom.contains, Dom.classList_remove. simpl.
  apply bool_decide_eq_false. intros H.
  apply list_elem_of_filter in H. destruct H as [Hn _]. exact (Hn Hin).
Qed.

Lemma contains_add_other t u e :
  t <> u -> Dom.contains t (Dom.classList_add u e) = Dom.contains t e.
Proof.
  intros Hne. unfold Dom.classList_add, Dom.contains at 1. simpl.
  destruct (Dom.contains u e); [reflexivity|].
  unfold Dom.contains. apply bool_decide_ext.
  rewrite elem_of_app, list_elem_of_singleton. tauto.
Qed.

Lemma contains_textContent t m e :
  Dom.contains t (Dom.set_textContent m e) = Dom.contains t e.
Proof. reflexivity. Qed.

End ClassList.

Section Keys.

Import ContextKey.

Lemma get_set k v st : get k (set k v st) = Some v.
Proof.
  unfold get, set, setContext, getContextKeyValue.
  destruct (boundTo k); simpl; by rewrite lookup_insert_eq.
Qed.

(** Writing the same value through a second handle does not disturb
    the first, whether or not the two name the same key. *)
Lemma get_set_set k k' v st : get k (set k' v (set k v st)) = Some v.
Proof.
  unfold get, set, setContext, getContextKeyValue.
  destruct (boundTo k), (boundTo k'); simpl;
    rewrite ?lookup_insert_eq; try reflexivity;
    rewrite lookup_insert; case_decide; by rewrite ?lookup_insert_eq.
Qed.

End Keys.

Section Frames.

Implicit Types (s : TerminalChatWidget) (o : Op).

Lemma onModelResolved_visibility model s s' :
  onModelResolved model s = Js.Normal s' -> visibility s' = visibility s.
Proof.
  unfold onModelResolved.
  destruct model as [m|], (_responseWidget s) as [w|] eqn:E; simpl;
    intros [= <-]; reflexivity.
Qed.

Lemma renderTerminalCommand_visibility c r s :
  visibility (renderTerminalCommand c r s) = visibility s.
Proof.
  unfold renderTerminalCommand, _getTextModel. simpl.
  destruct (_responseWidget s); [reflexivity|]. simpl.
  destruct (Model.getModel _ _) as [m|]; [destruct (Model.isDisposed m)|]; reflexivity.
Qed.

Lemma runMicrotask_visibility s : visibility (runMicrotask s) = visibility s.
Proof.
  unfold runMicrotask. destruct (microtasks s) as [|model rest]; [reflexivity|].
  destruct (onModelResolved _ _) eqn:E; [|reflexivity].
  apply onModelResolved_visibility in E. rewrite E. reflexivity.
Qed.

(** Only [reveal] and [hide] touch the flags or the widget container. *)
Lemma step_visibility o s :
  o <> Reveal -> o <> Hide -> visibility (step o s) = visibility s.
Proof.
  intros HR HH. destruct o; simpl; try congruence; try reflexivity.
  - apply renderTerminalCommand_visibility.
  - unfold setValue. destruct (negb _); reflexivity.
  - apply runMicrotask_visibility.
Qed.

Lemma consistent_visibility s s' :
  visibility s' = visibility s -> consistent s -> consistent s'.
Proof.
  unfold visibility, consistent, chatFocusedFlag, chatVisibleFlag.
  intros [= -> -> -> ->]. tauto.
Qed.

Lemma reveal_shown s :
  chatFocusedFlag (reveal s) = Some true /\
  chatVisibleFlag (reveal s) = Some true /\
  hidden (_widgetContainer (reveal s)) = false.
Proof.
  unfold chatFocusedFlag, chatVisibleFlag, hidden, reveal. simpl.
  split; [apply get_set_set|]. split; [apply get_set|].
  apply contains_remove. apply list_elem_of_singleton. reflexivity.
Qed.

Lemma hide_hidden s :
  chatFocusedFlag (hide s) = Some false /\
  chatVisibleFlag (hide s) = Some false /\
  hidden (_widgetContainer (hide s)) = true /\
  hidden (_responseElement (hide s)) = true.
Proof.
  unfold chatFocusedFlag, chatVisibleFlag, hidden, hide. simpl.
  split; [apply get_set_set|]. split; [apply get_set|].
  split; apply contains_add.
Qed.

Lemma consistent_reveal s : consistent (reveal s).
Proof.
  destruct (reveal_shown s) as (Hf & Hv & Hh).
  unfold consistent. rewrite Hf, Hv, Hh. split; reflexivity.
Qed.

Lemma consistent_hide s : consistent (hide s).
Proof.
  destruct (hide_hidden s) as (Hf & Hv & Hh & _).
  unfold consistent. rewrite Hf, Hv, Hh. split; reflexivity.
Qed.

Lemma consistent_step o s : consistent s -> consistent (step o s).
Proof.
  intros H.
  destruct o; try apply consistent_reveal; try apply consistent_hide;
    (eapply consistent_visibility; [apply step_visibility; discriminate|assumption]).
Qed.

Lemma consistent_run ops s : consistent s -> consistent (run ops s).
Proof.
  revert s. induction ops as [|o ops IH]; intros s H; simpl; [assumption|].
  apply IH, consistent_step, H.
Qed.

End Frames.

(** ** The claims *)

(** C1.  After [reveal()], whatever came before, both context-key flags
    are true and the widget container is not hidden; after [hide()] both
    flags are false and the widget container and the response container
    are hidden.  Once either has been called, the flags and the widget
    container's visibility class agree after every further sequence of
    operations. *)
Theorem reveal_hide_visibility (s : TerminalChatWidget) (ops : list Op) :
  let r := reveal (run ops s) in
  let h := hide (run ops s) in
  (chatFocusedFlag r = Some true /\
   chatVisibleFlag r = Some true /\
   hidden (_widgetContainer r) = false) /\
  (chatFocusedFlag h = Some false /\
   chatVisibleFlag h = Some false /\
   hidden (_widgetContainer h) = true /\
   hidden (_responseElement h) = true) /\
  consistent (run ops (reveal s)) /\
  consistent (run ops (hide s)).
Proof.
  cbv zeta. split; [apply reveal_shown|]. split; [apply hide_hidden|].
  split; apply consistent_run; [apply consistent_reveal|apply consistent_hide].
Qed.

(** C10.  [hide()] and [reveal()] leave the inline-chat input text as it
    was: [input()] returns the same string before and after either call,
    and so also after hiding and revealing again. *)
Theorem hide_reveal_keep_input (s : TerminalChatWidget) :
  input (hide s) = input s /\
  input (reveal s) = input s /\
  input (reveal (hide s)) = input s.
Proof. repeat split. Qed.

(** C8.  [cancel()] empties the inline-chat input and changes nothing
    else: the other fields of the inline-chat widget, the containers, the
    response viewer, the context keys, the focus, the services and the
    pending continuations are as before. *)
Theorem cancel_only_clears_input (s : TerminalChatWidget) :
  input (cancel s) = "" /\
  _inlineChatWidget (cancel s) = Editor.set_value "" (_inlineChatWidget s) /\
  Editor.placeholder (_inlineChatWidget (cancel s)) = Editor.placeholder (_inlineChatWidget s) /\
  Editor.info (_inlineChatWidget (cancel s)) = Editor.info (_inlineChatWidget s) /\
  Editor.dimension (_inlineChatWidget (cancel s)) = Editor.dimension (_inlineChatWidget s) /\
  Editor.progress (_inlineChatWidget (cancel s)) = Editor.progress (_inlineChatWidget s) /\
  visibility (cancel s) = visibility s /\
  _responseElement (cancel s) = _responseElement s /\
  _responseWidget (cancel s) = _responseWidget s /\
  _container (cancel s) = _container s /\
  _chatAccessibilityService (cancel s) = _chatAccessibilityService s /\
  _modelService (cancel s) = _modelService s /\
  instantiated (cancel s) = instantiated s /\
  microtasks (cancel s) = microtasks s /\
  activeElement (cancel s) = activeElement s /\
  unhandledRejections (cancel s) = unhandledRejections s.
Proof. repeat split. Qed.

(** C6.  After [renderMessage(m, id)] the response container's text
    content is [m], it carries the ['message'] class, and [input()]
    returns what it returned before. *)
Theorem renderMessage_shows_message (m : string) (id : Z) (s : TerminalChatWidget) :
  Dom.textContent (_responseElement (renderMessage m id s)) = m /\
  messageMode (_responseElement (renderMessage m id s)) = true /\
  input (renderMessage m id s) = input s.
Proof.
  split; [reflexivity|]. split; [|reflexivity].
  unfold renderMessage, messageMode. simpl.
  rewrite contains_textContent. apply contains_add.
Qed.

(** C5.  After [setValue(v)], [input()] returns [v].  When [setValue] is
    called without argument or with the empty string, the response
    container is hidden as well and [input()] returns the empty string. *)
Theorem setValue_then_input (v : string) (s : TerminalChatWidget) :
  input (setValue (Some v) s) = v /\
  (hidden (_responseElement (setValue None s)) = true /\
   input (setValue None s) = "") /\
  (hidden (_responseElement (setValue (Some "") s)) = true /\
   input (setValue (Some "") s) = "").
Proof.
  split.
  - unfold setValue. destruct (negb _); reflexivity.
  - split; (split; [apply contains_add|reflexivity]).
Qed.

(** C7.  [updateProgress] hands the inline-chat widget one boolean, and
    that boolean is true exactly when a progress object is supplied whose
    [kind] is ['content'] or ['markdownContent']. *)
Theorem updateProgress_forwards (p : option IChatProgress) (s : TerminalChatWidget) :
  exists b : bool,
    Editor.progress (_inlineChatWidget (updateProgress p s)) =
      (Editor.progress (_inlineChatWidget s) ++ [b])%list /\
    (b = true <->
     exists pr, p = Some pr /\ (kind pr = "content" \/ kind pr = "markdownContent")).
Proof.
  exists (isTextualProgress p). split; [reflexivity|].
  unfold isTextualProgress. destruct p as [pr|].
  - rewrite orb_true_iff, !String.eqb_eq. split.
    + intros H. exists pr. auto.
    + intros (pr' & [= <-] & H). exact H.
  - split; [discriminate|]. intros (pr & H & _). discriminate.
Qed.

(** C3.  When the continuation resumes with a null model, or after the
    response-viewer reference has been cleared, it returns normally and
    leaves the widget exactly as it found it; the event loop that resumed
    it has only taken it off the queue. *)
Theorem late_resolution_is_dropped (model : option Model.ITextModel)
    (s : TerminalChatWidget) :
  model = None \/ _responseWidget s = None ->
  onModelResolved model s = Js.Normal s /\
  forall rest, microtasks s = model :: rest -> runMicrotask s = set_microtasks rest s.
Proof.
  intros H.
  assert (Hc : forall t, _responseWidget t = _responseWidget s ->
                         onModelResolved model t = Js.Normal t).
  { intros t Ht. unfold onModelResolved. rewrite Ht.
    destruct H as [-> | ->]; [reflexivity|]. destruct model; reflexivity. }
  split; [apply Hc; reflexivity|].
  intros rest Hq. unfold runMicrotask. rewrite Hq.
  rewrite Hc; reflexivity.
Qed.

Lemma late_resolution_is_dropped_witness :
  (Some sampleModel = None \/ _responseWidget tornDown = None) /\
  microtasks tornDown = [Some sampleModel] /\
  onModelResolved (Some sampleModel) tornDown = Js.Normal tornDown /\
  runMicrotask tornDown = set_microtasks [] tornDown.
Proof.
  split; [right; reflexivity|]. split; [reflexivity|].
  destruct (late_resolution_is_dropped (Some sampleModel) tornDown
              (or_intror eq_refl)) as [H1 H2].
  split; [exact H1|apply H2; reflexivity].
Defined.

Section Wiring.

Implicit Types (s : TerminalChatWidget) (o : Op).

(** The continuation never throws, whatever it is resumed with. *)
Lemma onModelResolved_returns model s :
  exists s', onModelResolved model s = Js.Normal s'.
Proof.
  unfold onModelResolved.
  destruct model as [m|], (_responseWidget s) as [w|]; simpl; eauto.
Qed.

Lemma onModelResolved_wiring model s s' :
  onModelResolved model s = Js.Normal s' -> wiring s' = wiring s.
Proof.
  unfold onModelResolved.
  destruct model as [m|], (_responseWidget s) as [w|]; simpl;
    intros [= <-]; reflexivity.
Qed.

Lemma step_wiring o s : wiring (step o s) = wiring s.
Proof.
  destruct o; simpl; try reflexivity.
  - unfold renderTerminalCommand, _getTextModel. simpl.
    destruct (_responseWidget s); [reflexivity|]. simpl.
    destruct (Model.getModel _ _) as [m|]; [destruct (Model.isDisposed m)|]; reflexivity.
  - unfold setValue. destruct (negb _); reflexivity.
  - unfold runMicrotask. destruct (microtasks s) as [|model rest]; [reflexivity|].
    destruct (onModelResolved _ _) eqn:E; [|reflexivity].
    apply onModelResolved_wiring in E. rewrite E. reflexivity.
Qed.

Lemma run_wiring ops s : wiring (run ops s) = wiring s.
Proof.
  revert s. induction ops as [|o ops IH]; intros s; simpl; [reflexivity|].
  rewrite IH. apply step_wiring.
Qed.

(** With both handles on the injected service, a step leaves the scoped
    namespace as it is. *)
Lemma step_scoped o s :
  ContextKey.boundTo (_chatWidgetFocused s) = ContextKey.Injected ->
  ContextKey.boundTo (_chatWidgetVisible s) = ContextKey.Injected ->
  ContextKey.scopedTarget (_contextKeyService (step o s)) =
    ContextKey.scopedTarget (_contextKeyService s) /\
  ContextKey.scopedValues (_contextKeyService (step o s)) =
    ContextKey.scopedValues (_contextKeyService s).
Proof.
  intros Hf Hv.
  assert (Hfr : visibility (step o s) = visibility s ->
                _contextKeyService (step o s) = _contextKeyService s)
    by (unfold visibility; congruence).
  destruct o;
    try (rewrite Hfr; [split; reflexivity|apply step_visibility; discriminate]).
  - simpl. unfold reveal, ContextKey.set. simpl. rewrite Hf, Hv. split; reflexivity.
  - simpl. unfold hide, ContextKey.set. simpl. rewrite Hf, Hv. split; reflexivity.
Qed.

Lemma run_scoped ops s :
  ContextKey.boundTo (_chatWidgetFocused s) = ContextKey.Injected ->
  ContextKey.boundTo (_chatWidgetVisible s) = ContextKey.Injected ->
  ContextKey.scopedTarget (_contextKeyService (run ops s)) =
    ContextKey.scopedTarget (_contextKeyService s) /\
  ContextKey.scopedValues (_contextKeyService (run ops s)) =
    ContextKey.scopedValues (_contextKeyService s).
Proof.
  revert s. induction ops as [|o ops IH]; intros s Hf Hv; simpl; [split; reflexivity|].
  pose proof (step_wiring o s) as Hw. unfold wiring in Hw.
  injection Hw as _ _ Hf' Hv' _.
  destruct (IH (step o s)) as [Ht Hs]; [congruence..|].
  destruct (step_scoped o s Hf Hv) as [Ht' Hs']. split; congruence.
Qed.

End Wiring.

(** C4, as stated: the two keys are bound to the namespace scoped to the
    container.  The constructor binds them to the service it was given;
    on a freshly constructed widget the statement fails. *)
Lemma keys_not_bound_to_scoped : ~ keysBoundToScoped sampleWidget.
Proof. intros [H _]. discriminate H. Qed.

(** C4, amended.  The constructor creates a namespace scoped to the host
    container and hands it to the widgets it instantiates, but binds the
    two keys to the context-key service it was given.  Through every run
    the handles stay on that service and the scoped namespace holds no
    value; [reveal()] writes [true] under both key names in the injected
    service's own values. *)
Theorem keys_bound_to_injected_service
    (keys : TerminalContextKeys) (container : Dom.HTMLElement)
    (instance : ITerminalInstance) (inst : Editor.IInstantiationService)
    (store : ContextKey.Store) (acc : list (string * Z))
    (models : Model.IModelService) (focus : Focus) (ops : list Op) :
  let s := run ops (construct keys container instance inst store acc models focus) in
  _chatWidgetFocused s = ContextKey.mkKey ContextKey.Injected (ContextKey.key (chatFocused keys)) /\
  _chatWidgetVisible s = ContextKey.mkKey ContextKey.Injected (ContextKey.key (chatVisible keys)) /\
  Editor.contextKeyService (_scopedInstantiationService s) = ContextKey.Scoped /\
  Editor.chatServices (_inlineChatWidget (construct keys container instance inst store acc models focus))
    = ContextKey.Scoped /\
  ContextKey.scopedTarget (_contextKeyService s) = Some Dom.HostContainer /\
  ContextKey.scopedValues (_contextKeyService s) = ∅ /\
  ContextKey.injectedValues (_contextKeyService (reveal s))
    !! ContextKey.key (chatFocused keys) = Some true /\
  ContextKey.injectedValues (_contextKeyService (reveal s))
    !! ContextKey.key (chatVisible keys) = Some true.
Proof.
  intros s. subst s.
  set (w := construct keys container instance inst store acc models focus).
  pose proof (run_wiring ops w) as Hw. unfold wiring in Hw.
  injection Hw as _ Hi Hf Hv _.
  destruct (run_scoped ops w eq_refl eq_refl) as [Ht Hs].
  split; [exact Hf|]. split; [exact Hv|]. split; [rewrite Hi; reflexivity|].
  split; [reflexivity|]. split; [rewrite Ht; reflexivity|]. split; [rewrite Hs; reflexivity|].
  unfold reveal. simpl. rewrite Hf, Hv. unfold ContextKey.set. simpl. split.
  - rewrite lookup_insert. case_decide; [reflexivity|apply lookup_insert_eq].
  - apply lookup_insert_eq.
Qed.

Section Viewer.

Implicit Types (s : TerminalChatWidget) (o : Op) (w : Editor.CodeEditorWidget).

Lemma sameViewer_refl w : sameViewer w w.
Proof. repeat split. exists []. symmetry. apply app_nil_r. Qed.

Lemma sameViewer_trans w1 w2 w3 :
  sameViewer w1 w2 -> sameViewer w2 w3 -> sameViewer w1 w3.
Proof.
  intros (Hi & Hd & Ho & Hs & l1 & H1) (Hi' & Hd' & Ho' & Hs' & l2 & H2).
  repeat split; try congruence.
  exists (l1 ++ l2)%list. rewrite H2, H1. symmetry. apply app_assoc.
Qed.

Lemma sameViewer_receive c w : sameViewer w (Editor.receive c w).
Proof. repeat split. exists [c]. reflexivity. Qed.

Lemma setValues_app l1 l2 w : setValues (l1 ++ l2) w = setValues l2 (setValues l1 w).
Proof. apply fold_left_app. Qed.

Lemma rendered_cons o ops : rendered (o :: ops) = (rendered [o] ++ rendered ops)%list.
Proof. destruct o; reflexivity. Qed.

(** Once a viewer is there, a step keeps the reference on the same
    instance and creates no editor. *)
Lemma step_viewer o s w :
  _responseWidget s = Some w ->
  exists w', _responseWidget (step o s) = Some w' /\ sameViewer w w' /\
             instantiated (step o s) = instantiated s.
Proof.
  intros H. destruct o; simpl;
    try (exists w; split; [exact H|]; split; [apply sameViewer_refl|reflexivity]).
  - unfold renderTerminalCommand. simpl. rewrite H. simpl.
    eexists. split; [reflexivity|]. split; [apply sameViewer_receive|reflexivity].
  - unfold setValue. destruct (negb _);
      (exists w; split; [exact H|]; split; [apply sameViewer_refl|reflexivity]).
  - unfold runMicrotask. destruct (microtasks s) as [|model rest].
    + exists w; split; [exact H|]; split; [apply sameViewer_refl|reflexivity].
    + unfold onModelResolved. simpl. rewrite H. destruct model as [m|]; simpl.
      * eexists. split; [reflexivity|]. split; [|reflexivity].
        eapply sameViewer_trans; apply sameViewer_receive.
      * exists w; split; [exact H|]; split; [apply sameViewer_refl|reflexivity].
Qed.

Lemma run_viewer ops s w :
  _responseWidget s = Some w ->
  exists w', _responseWidget (run ops s) = Some w' /\ sameViewer w w' /\
             instantiated (run ops s) = instantiated s.
Proof.
  revert s w. induction ops as [|o ops IH]; intros s w H; simpl.
  - exists w. split; [exact H|]. split; [apply sameViewer_refl|reflexivity].
  - destruct (step_viewer o s w H) as (w1 & H1 & Hs1 & Hi1).
    destruct (IH _ _ H1) as (w2 & H2 & Hs2 & Hi2).
    exists w2. split; [exact H2|]. split; [|congruence].
    eapply sameViewer_trans; eassumption.
Qed.

(** With no continuation pending, the only calls a viewer receives are
    the [setValue]s of later renders. *)
Lemma step_viewer_quiet o s w :
  _responseWidget s = Some w -> microtasks s = [] ->
  _responseWidget (step o s) = Some (setValues (rendered [o]) w) /\
  microtasks (step o s) = [].
Proof.
  intros H Hq. destruct o; simpl; try (split; assumption).
  - unfold renderTerminalCommand. simpl. rewrite H. simpl. split; [reflexivity|exact Hq].
  - unfold setValue. destruct (negb _); split; assumption.
  - unfold runMicrotask. rewrite Hq. split; assumption.
Qed.

Lemma run_viewer_quiet ops s w :
  _responseWidget s = Some w -> microtasks s = [] ->
  _responseWidget (run ops s) = Some (setValues (rendered ops) w).
Proof.
  revert s w. induction ops as [|o ops IH]; intros s w H Hq; simpl run; [exact H|].
  destruct (step_viewer_quiet o s w H Hq) as [H1 Hq1].
  rewrite (IH _ _ H1 Hq1). f_equal.
  rewrite (rendered_cons o ops). symmetry. apply setValues_app.
Qed.

(** Before the first render there is no viewer and nothing pending. *)
Lemma run_before_render ops s :
  rendered ops = [] -> _responseWidget s = None -> microtasks s = [] ->
  _responseWidget (run ops s) = None /\
  instantiated (run ops s) = instantiated s /\
  microtasks (run ops s) = [].
Proof.
  revert s. induction ops as [|o ops IH]; intros s Hr H Hq; simpl run; [auto|].
  assert (Hstep : _responseWidget (step o s) = None /\
                  instantiated (step o s) = instantiated s /\
                  microtasks (step o s) = [] /\ rendered ops = []).
  { destruct o; simpl in Hr |- *; try discriminate; auto.
    - unfold setValue. destruct (negb _); auto.
    - unfold runMicrotask. rewrite Hq. auto. }
  destruct Hstep as (H1 & Hi1 & Hq1 & Hr1).
  destruct (IH _ Hr1 H1 Hq1) as (H2 & Hi2 & Hq2). repeat split; congruence.
Qed.

(** The synthesized URI determines the terminal it was made for. *)
Lemma responseUri_instance i i' c c' :
  responseUri i c = responseUri i' c' -> instanceId i = instanceId i'.
Proof.
  unfold responseUri. intros [= H _].
  change (pretty (instanceId i) = pretty (instanceId i')) in H.
  by apply (inj pretty) in H.
Qed.

Lemma getModel_uri resource ms m :
  Model.getModel resource ms = Some m -> Model.uri m = resource.
Proof.
  unfold Model.getModel. intros H. apply find_some in H. destruct H as [_ H].
  by apply bool_decide_eq_true in H.
Qed.

(** The first render: one editor over the response container, and one
    pending continuation holding the document of the synthesized URI. *)
Lemma renderTerminalCommand_first c r s :
  _responseWidget s = None ->
  exists v m,
    Editor.domElement v = Dom.ResponseElement /\ Editor.calls v = [] /\
    _responseWidget (renderTerminalCommand c r s) = Some v /\
    instantiated (renderTerminalCommand c r s) = (instantiated s ++ [v])%list /\
    microtasks (renderTerminalCommand c r s) = (microtasks s ++ [Some m])%list /\
    Model.uri m = responseUri (_instance s) c.
Proof.
  intros H. unfold renderTerminalCommand, _getTextModel. simpl. rewrite H. simpl.
  destruct (Model.getModel _ _) as [m|] eqn:E; [destruct (Model.isDisposed m)|]; simpl;
    eexists; eexists; repeat split; try reflexivity.
  apply getModel_uri in E. exact E.
Qed.

End Viewer.

(** C9.  Once the response viewer exists, every sequence of operations
    (method calls and resumed continuations) leaves [_responseWidget] set
    to that same editor instance and creates no other editor; the
    instance only receives further calls.  When no continuation is
    pending, those calls are exactly the [setValue]s of the later
    renders, in order. *)
Theorem viewer_never_replaced (s : TerminalChatWidget) (ops : list Op)
    (w : Editor.CodeEditorWidget) :
  _responseWidget s = Some w ->
  (exists w', _responseWidget (run ops s) = Some w' /\ sameViewer w w') /\
  instantiated (run ops s) = instantiated s /\
  (microtasks s = [] ->
   _responseWidget (run ops s) = Some (setValues (rendered ops) w)).
Proof.
  intros H. destruct (run_viewer ops s w H) as (w' & H' & Hs & Hi).
  split; [exists w'; split; assumption|]. split; [exact Hi|].
  intros Hq. apply run_viewer_quiet; assumption.
Qed.

Lemma viewer_never_replaced_witness :
  _responseWidget afterFirstRender = Some sampleViewer /\
  (exists w', _responseWidget
                (run [Hide; Cancel; RenderTerminalCommand "echo bye" 2; Resume; Reveal]
                     afterFirstRender) = Some w' /\
              sameViewer sampleViewer w') /\
  instantiated (run [Hide; Cancel; RenderTerminalCommand "echo bye" 2; Resume; Reveal]
                    afterFirstRender) = instantiated afterFirstRender.
Proof.
  split; [reflexivity|].
  destruct (viewer_never_replaced afterFirstRender
              [Hide; Cancel; RenderTerminalCommand "echo bye" 2; Resume; Reveal]
              sampleViewer eq_refl) as (H1 & H2 & _).
  split; [exact H1|exact H2].
Defined.

Section Pending.

Implicit Types (s : TerminalChatWidget) (w : Editor.CodeEditorWidget).

(** The document that the first render leaves pending, with its text. *)
Lemma renderTerminalCommand_first_document c r s :
  _responseWidget s = None ->
  exists v m,
    Editor.domElement v = Dom.ResponseElement /\ Editor.calls v = [] /\
    _responseWidget (renderTerminalCommand c r s) = Some v /\
    instantiated (renderTerminalCommand c r s) = (instantiated s ++ [v])%list /\
    microtasks (renderTerminalCommand c r s) = (microtasks s ++ [Some m])%list /\
    Model.uri m = responseUri (_instance s) c /\
    Model.value m =
      match Model.getModel (responseUri (_instance s) c) (_modelService s) with
      | Some existing => if Model.isDisposed existing then c else Model.value existing
      | None => c
      end.
Proof.
  intros H. unfold renderTerminalCommand, _getTextModel. simpl. rewrite H. simpl.
  destruct (Model.getModel _ _) as [m|] eqn:E; [destruct (Model.isDisposed m)|]; simpl;
    eexists; eexists; repeat split; try reflexivity.
  apply getModel_uri in E. exact E.
Qed.

(** A render on a widget that has its viewer. *)
Lemma renderTerminalCommand_later c r s w :
  _responseWidget s = Some w ->
  _responseWidget (renderTerminalCommand c r s) = Some (Editor.setValue c w) /\
  instantiated (renderTerminalCommand c r s) = instantiated s /\
  microtasks (renderTerminalCommand c r s) = microtasks s.
Proof.
  intros H. unfold renderTerminalCommand. simpl. rewrite H. repeat split.
Qed.

(** Resuming a continuation that holds a document, on a widget that has
    its viewer. *)
Lemma runMicrotask_binds s m rest w :
  microtasks s = Some m :: rest ->
  _responseWidget s = Some w ->
  _responseWidget (runMicrotask s) =
    Some (Editor.layout (Dom.mkDimension 400 150) (Editor.setModel m w)) /\
  instantiated (runMicrotask s) = instantiated s /\
  microtasks (runMicrotask s) = rest.
Proof.
  intros Hq Hw. unfold runMicrotask, onModelResolved. rewrite Hq. simpl.
  rewrite Hw. repeat split.
Qed.

End Pending.

(** C2.  What the code does when a later render arrives while the
    continuation of the first is still pending.  The two calls share the
    one viewer, and the later one calls [setValue c2] on it; but no
    document is bound yet, and when the continuation resumes it binds
    the document resolved for the first code block.  The viewer ends on
    that document's text (the first code block itself, unless the model
    service already held a live document under the URI), whatever the
    later code block [c2] was. *)
Theorem later_render_lost_to_pending_continuation
    (keys : TerminalContextKeys) (container : Dom.HTMLElement)
    (instance : ITerminalInstance) (inst : Editor.IInstantiationService)
    (store : ContextKey.Store) (acc : list (string * Z))
    (models : Model.IModelService) (focus : Focus)
    (c1 c2 : string) (r1 r2 : Z) :
  let s := run [RenderTerminalCommand c1 r1; RenderTerminalCommand c2 r2; Resume]
               (construct keys container instance inst store acc models focus) in
  exists w m,
    _responseWidget s = Some w /\
    length (responseViewers s) = 1%nat /\
    microtasks s = [] /\
    Editor.calls w = [Editor.SetValue c2; Editor.SetModel m;
                      Editor.Layout (Dom.mkDimension 400 150)] /\
    Editor.boundModel w = Some m /\
    Model.uri m = responseUri instance c1 /\
    Model.value m =
      match Model.getModel (responseUri instance c1) models with
      | Some existing => if Model.isDisposed existing then c1 else Model.value existing
      | None => c1
      end /\
    Editor.text w = Some (Model.value m).
Proof.
  cbv zeta. simpl run.
  set (w0 := construct keys container instance inst store acc models focus).
  destruct (renderTerminalCommand_first_document c1 r1 w0 eq_refl)
    as (v & m & Hd & Hc & H1 & Hi1 & Hq1 & Hu & Hval).
  set (s1 := renderTerminalCommand c1 r1 w0) in *.
  destruct (renderTerminalCommand_later c2 r2 s1 v H1) as (H2 & Hi2 & Hq2).
  set (s2 := renderTerminalCommand c2 r2 s1) in *.
  rewrite Hq1 in Hq2. simpl in Hq2.
  destruct (runMicrotask_binds s2 m [] _ Hq2 H2) as (H3 & Hi3 & Hq3).
  exists (Editor.layout (Dom.mkDimension 400 150)
            (Editor.setModel m (Editor.setValue c2 v))), m.
  assert (Hcalls : Editor.calls
                     (Editor.layout (Dom.mkDimension 400 150)
                        (Editor.setModel m (Editor.setValue c2 v))) =
                   [Editor.SetValue c2; Editor.SetModel m;
                    Editor.Layout (Dom.mkDimension 400 150)])
    by (simpl; rewrite Hc; reflexivity).
  split; [exact H3|]. split.
  { unfold responseViewers. rewrite Hi3, Hi2, Hi1. simpl.
    rewrite !filter_cons, filter_nil, decide_False, decide_True;
      [reflexivity|exact Hd|discriminate]. }
  split; [exact Hq3|]. split; [exact Hcalls|].
  split; [unfold Editor.boundModel; rewrite Hcalls; reflexivity|].
  split; [exact Hu|]. split; [exact Hval|].
  unfold Editor.text. rewrite Hcalls. reflexivity.
Qed.

(** A second render that arrives while the continuation of the first is
    still pending calls [setValue] before any document is bound; when the
    continuation resumes, [setModel] binds the document of the first code
    block, so the calls the viewer has received end with that binding. *)
Example render_before_resume :
  let s := run [RenderTerminalCommand "echo hi" 1;
                RenderTerminalCommand "echo bye" 2;
                Resume] sampleWidget in
  (Editor.calls <$> _responseWidget s) =
    Some [Editor.SetValue "echo bye";
          Editor.SetModel sampleModel;
          Editor.Layout (Dom.mkDimension 400 150)] /\
  (Editor.text <$> _responseWidget s) = Some (Some "echo hi").
Proof. split; reflexivity. Qed.

(** ** Further properties of the widget *)

Section Logs.

Implicit Types (s : TerminalChatWidget) (o : Op) (e : Dom.HTMLElement).

Lemma contains_remove_other t tokens e :
  t ∉ tokens -> Dom.contains t (Dom.classList_remove tokens e) = Dom.contains t e.
Proof.
  intros Hn. unfold Dom.contains, Dom.classList_remove. simpl.
  apply bool_decide_ext. rewrite list_elem_of_filter. tauto.
Qed.

Lemma visibility_flags s s' :
  visibility s' = visibility s ->
  hidden (_widgetContainer s') = hidden (_widgetContainer s) /\
  chatFocusedFlag s' = chatFocusedFlag s /\
  chatVisibleFlag s' = chatVisibleFlag s.
Proof.
  unfold visibility, chatFocusedFlag, chatVisibleFlag. intros [= -> -> -> ->]. auto.
Qed.

Lemma responses_cons o ops : responses (o :: ops) = (responses [o] ++ responses ops)%list.
Proof. destruct o; reflexivity. Qed.

Lemma forwarded_cons o ops : forwarded (o :: ops) = (forwarded [o] ++ forwarded ops)%list.
Proof. destruct o; reflexivity. Qed.

Lemma step_accessibility o s :
  _chatAccessibilityService (step o s) =
    (_chatAccessibilityService s ++ responses [o])%list.
Proof. destruct o; split_step s; rewrite ?app_nil_r; reflexivity. Qed.

Lemma step_progress o s :
  Editor.progress (_inlineChatWidget (step o s)) =
    (Editor.progress (_inlineChatWidget s) ++ forwarded [o])%list.
Proof. destruct o; split_step s; rewrite ?app_nil_r; reflexivity. Qed.

Lemma step_input o s : input (step o s) = inputAfter [o] (input s).
Proof. destruct o; split_step s; reflexivity. Qed.

End Logs.

(** X1.  Each render shows the response container in its own mode:
    after [renderTerminalCommand] it is neither hidden nor in message
    mode, after [renderMessage] it is not hidden and in message mode;
    whatever the container's classes were before. *)
Theorem render_sets_mode (text : string) (id : Z) (s : TerminalChatWidget) :
  (hidden (_responseElement (renderTerminalCommand text id s)) = false /\
   messageMode (_responseElement (renderTerminalCommand text id s)) = false) /\
  (hidden (_responseElement (renderMessage text id s)) = false /\
   messageMode (_responseElement (renderMessage text id s)) = true).
Proof.
  assert (Hc : forall t, t ∈ ["message"; "hide"] ->
            Dom.contains t (_responseElement (renderTerminalCommand text id s)) = false).
  { intros t Ht. split_step s; apply contains_remove; exact Ht. }
  split; [split; apply Hc; set_solver|].
  unfold hidden, messageMode, renderMessage. simpl. rewrite !contains_textContent.
  split; [|apply contains_add].
  rewrite contains_add_other by discriminate.
  apply contains_remove. set_solver.
Qed.

(** X2.  Nothing but [reveal] shows the widget again: after [hide],
    through every run without a [reveal] (renders, resumed continuations,
    input writes, progress), the widget container stays hidden and both
    flags stay false. *)
Theorem hidden_until_reveal (s : TerminalChatWidget) (ops : list Op) :
  Forall (fun o => o <> Reveal) ops ->
  hidden (_widgetContainer (run ops (hide s))) = true /\
  chatFocusedFlag (run ops (hide s)) = Some false /\
  chatVisibleFlag (run ops (hide s)) = Some false.
Proof.
  intros Hops.
  assert (H : forall t,
            hidden (_widgetContainer t) = true /\
            chatFocusedFlag t = Some false /\ chatVisibleFlag t = Some false ->
            hidden (_widgetContainer (run ops t)) = true /\
            chatFocusedFlag (run ops t) = Some false /\
            chatVisibleFlag (run ops t) = Some false).
  { induction Hops as [|o ops Ho _ IH]; intros t Ht; simpl; [exact Ht|].
    apply IH. destruct (hide_hidden t) as (Hf & Hv & Hw & _).
    destruct o; try congruence; try (split; [exact Hw|split; [exact Hf|exact Hv]]);
      (match goal with
       | |- context [step ?o t] =>
           destruct (visibility_flags t (step o t)) as (-> & -> & ->);
           [apply step_visibility; discriminate|exact Ht]
       end). }
  apply H. destruct (hide_hidden s) as (Hf & Hv & Hw & _). auto.
Qed.

Lemma hidden_until_reveal_witness :
  Forall (fun o => o <> Reveal)
         [RenderMessage "done" 3; RenderTerminalCommand "ls" 4; Resume; SetValue None] /\
  hidden (_widgetContainer
            (run [RenderMessage "done" 3; RenderTerminalCommand "ls" 4; Resume; SetValue None]
                 (hide sampleWidget))) = true.
Proof.
  assert (H : Forall (fun o => o <> Reveal)
                [RenderMessage "done" 3; RenderTerminalCommand "ls" 4; Resume; SetValue None])
    by (repeat constructor; discriminate).
  split; [exact H|].
  exact (proj1 (hidden_until_reveal sampleWidget _ H)).
Defined.

(** X3.  The accessibility service hears of every render, and of nothing
    else: after a run its log is the log before followed by one
    [(text, requestId)] entry per [renderTerminalCommand] or
    [renderMessage], in call order. *)
Theorem accessibility_hears_every_render (s : TerminalChatWidget) (ops : list Op) :
  _chatAccessibilityService (run ops s) =
    (_chatAccessibilityService s ++ responses ops)%list.
Proof.
  revert s. induction ops as [|o ops IH]; intros s; simpl run.
  - symmetry. apply app_nil_r.
  - rewrite IH, step_accessibility, (responses_cons o ops). symmetry. apply app_assoc.
Qed.

(** X5.  Only [cancel] and [setValue] write the input: after any run,
    [input()] returns what the last of them wrote ([''] for [cancel] and
    for [setValue()] without argument), or the text from before the run
    when there was none.  Renders, [reveal], [hide], [updateProgress],
    [layout] and resumed continuations leave it alone. *)
Theorem input_is_last_written (s : TerminalChatWidget) (ops : list Op) :
  input (run ops s) = inputAfter ops (input s).
Proof.
  revert s. induction ops as [|o ops IH]; intros s; simpl run; [reflexivity|].
  rewrite IH, step_input. destruct o; reflexivity.
Qed.

(** X7.  The inline-chat widget receives one progress signal per
    [updateProgress] call, in call order, and none from any other
    operation. *)
Theorem progress_signals_follow_calls (s : TerminalChatWidget) (ops : list Op) :
  Editor.progress (_inlineChatWidget (run ops s)) =
    (Editor.progress (_inlineChatWidget s) ++ forwarded ops)%list.
Proof.
  revert s. induction ops as [|o ops IH]; intros s; simpl run.
  - symmetry. apply app_nil_r.
  - rewrite IH, step_progress, (forwarded_cons o ops). symmetry. apply app_assoc.
Qed.

Section Lifecycle.

Implicit Types (s : TerminalChatWidget) (o : Op).

Lemma step_pending o s w :
  _responseWidget s = Some w ->
  (length (microtasks (step o s)) <= length (microtasks s))%nat /\
  _modelService (step o s) = _modelService s.
Proof.
  intros H. destruct o; split_step s; try congruence; split; simplify_eq; simpl;
    auto with lia.
Qed.

Lemma step_afterFirstRender o s :
  afterFirstRenderState s -> afterFirstRenderState (step o s).
Proof.
  intros ([w Hw] & Hq & Hv).
  destruct (step_viewer o s w Hw) as (w' & Hw' & _ & Hi).
  destruct (step_pending o s w Hw) as [Hq' _].
  split; [eauto|]. split; [lia|].
  unfold responseViewers in *. rewrite Hi. exact Hv.
Qed.

Lemma run_afterFirstRender ops s :
  afterFirstRenderState s -> afterFirstRenderState (run ops s).
Proof.
  revert s. induction ops as [|o ops IH]; intros s H; simpl; [exact H|].
  apply IH, step_afterFirstRender, H.
Qed.

Lemma first_render_afterFirstRender c r s :
  beforeFirstRender s -> afterFirstRenderState (renderTerminalCommand c r s).
Proof.
  intros (Hw & Hq & Hv).
  destruct (renderTerminalCommand_first c r s Hw) as (v & m & Hd & _ & H1 & Hi & Hq1 & _).
  split; [eauto|]. rewrite Hq1, Hq. split; [simpl; lia|].
  unfold responseViewers in *. rewrite Hi, filter_app, Hv. simpl.
  rewrite filter_cons, decide_True by exact Hd. reflexivity.
Qed.

Lemma step_beforeFirstRender o s :
  rendered [o] = [] -> beforeFirstRender s -> beforeFirstRender (step o s).
Proof.
  intros Ho (Hw & Hq & Hv). unfold beforeFirstRender, responseViewers in *.
  destruct o; try discriminate Ho; unfold_step; rewrite ?Hq; auto.
  destruct (negb _); auto.
Qed.

Lemma run_lifecycle ops s :
  beforeFirstRender s ->
  (rendered ops = [] -> beforeFirstRender (run ops s)) /\
  (rendered ops <> [] -> afterFirstRenderState (run ops s)).
Proof.
  revert s. induction ops as [|o ops IH]; intros s Hs; simpl run.
  - split; [auto|]. intros H. contradiction H. reflexivity.
  - rewrite (rendered_cons o ops). destruct (rendered [o]) as [|c cs] eqn:Ho.
    + apply IH, step_beforeFirstRender; assumption.
    + split; [discriminate|]. intros _. apply run_afterFirstRender.
      destruct o; try discriminate Ho.
      apply first_render_afterFirstRender, Hs.
Qed.

End Lifecycle.

(** X8.  The life of the response viewer on a constructed widget: there
    is a viewer exactly when [renderTerminalCommand] has been called at
    least once, and whatever the sequence of operations, at most one
    editor has been created over the response container and at most one
    continuation is pending. *)
Theorem viewer_exists_iff_rendered
    (keys : TerminalContextKeys) (container : Dom.HTMLElement)
    (instance : ITerminalInstance) (inst : Editor.IInstantiationService)
    (store : ContextKey.Store) (acc : list (string * Z))
    (models : Model.IModelService) (focus : Focus) (ops : list Op) :
  let s := run ops (construct keys container instance inst store acc models focus) in
  (_responseWidget s = None <-> rendered ops = []) /\
  (length (responseViewers s) <= 1)%nat /\
  (length (microtasks s) <= 1)%nat /\
  (length (instantiated s) <= 2)%nat.
Proof.
  cbv zeta.
  set (w0 := construct keys container instance inst store acc models focus).
  assert (H0 : beforeFirstRender w0) by (repeat split).
  destruct (run_lifecycle ops w0 H0) as [Hb Ha].
  assert (Hlen : forall t : TerminalChatWidget,
            (length (instantiated t) <= 1 + length (responseViewers t))%nat ->
            (length (responseViewers t) <= 1)%nat ->
            (length (instantiated t) <= 2)%nat) by (intros; lia).
  assert (Hinst : (length (instantiated (run ops w0))
                   <= 1 + length (responseViewers (run ops w0)))%nat).
  { clear Hb Ha.
    assert (G : forall ops t,
              (length (instantiated t) <= 1 + length (responseViewers t))%nat ->
              (length (instantiated (run ops t))
               <= 1 + length (responseViewers (run ops t)))%nat).
    { clear. induction ops as [|o ops IH]; intros t Ht; simpl run; [exact Ht|].
      apply IH. unfold responseViewers in *.
      destruct o; split_step t; try exact Ht;
        rewrite length_app, filter_app, length_app, filter_cons, decide_True
          by reflexivity; simpl; lia. }
    apply G. simpl. lia. }
  destruct (rendered ops) as [|c cs] eqn:E.
  - destruct (Hb eq_refl) as (Hw & Hq & Hv).
    split; [tauto|]. rewrite Hq. split; [rewrite Hv; simpl; lia|].
    split; [simpl; lia|]. apply Hlen; [exact Hinst|rewrite Hv; simpl; lia].
  - destruct Ha as ([w Hw] & Hq & Hv); [discriminate|].
    split; [rewrite Hw; split; discriminate|].
    split; [lia|]. split; [exact Hq|]. apply Hlen; [exact Hinst|lia].
Qed.

(** X10.  What the viewer is bound to once the continuation of the first
    render has run: the live document that the model service already
    holds under the synthesized URI, with whatever text it has, and
    otherwise a new document whose text is the code block.  The viewer
    is laid out at 400 by 150 and nothing stays pending. *)
Theorem first_render_binds_document (c : string) (r : Z) (s : TerminalChatWidget) :
  _responseWidget s = None ->
  microtasks s = [] ->
  let t := runMicrotask (renderTerminalCommand c r s) in
  exists w m,
    _responseWidget t = Some w /\
    Editor.calls w = [Editor.SetModel m; Editor.Layout (Dom.mkDimension 400 150)] /\
    Editor.boundModel w = Some m /\
    Model.uri m = responseUri (_instance s) c /\
    Model.value m =
      match Model.getModel (responseUri (_instance s) c) (_modelService s) with
      | Some existing => if Model.isDisposed existing then c else Model.value existing
      | None => c
      end /\
    microtasks t = [].
Proof.
  intros Hw Hq. cbv zeta.
  unfold renderTerminalCommand, _getTextModel. simpl. rewrite Hw. simpl.
  destruct (Model.getModel _ _) as [m|] eqn:E; [destruct (Model.isDisposed m) eqn:D|];
    simpl; unfold runMicrotask; simpl; rewrite Hq; simpl;
    eexists; eexists; repeat split.
  eapply getModel_uri, E.
Qed.

Lemma first_render_binds_document_witness :
  _responseWidget sampleWidget = None /\
  microtasks sampleWidget = [] /\
  exists w,
    _responseWidget (runMicrotask (renderTerminalCommand "echo hi" 1 sampleWidget)) = Some w /\
    Editor.boundModel w = Some sampleModel.
Proof.
  split; [reflexivity|]. split; [reflexivity|].
  destruct (first_render_binds_document "echo hi" 1 sampleWidget eq_refl eq_refl)
    as (w & m & Hw & _ & _ & _ & _ & _).
  exists w. split; [exact Hw|].
  injection Hw as <-. reflexivity.
Defined.

Section Idempotence.

Implicit Types (s : TerminalChatWidget) (e : Dom.HTMLElement).

Lemma classList_add_twice t e :
  Dom.classList_add t (Dom.classList_add t e) = Dom.classList_add t e.
Proof.
  unfold Dom.classList_add at 1. rewrite contains_add. reflexivity.
Qed.

Lemma classList_remove_twice tokens e :
  Dom.classList_remove tokens (Dom.classList_remove tokens e) =
    Dom.classList_remove tokens e.
Proof.
  unfold Dom.classList_remove. simpl. f_equal.
  induction (Dom.classList e) as [|x l IH]; [reflexivity|].
  rewrite filter_cons. case_decide as Hx.
  - rewrite filter_cons, decide_True by exact Hx. f_equal. exact IH.
  - exact IH.
Qed.

(** Writing both keys a second time with the same value changes nothing. *)
Lemma set_both_twice k1 k2 v st :
  ContextKey.set k2 v (ContextKey.set k1 v (ContextKey.set k2 v (ContextKey.set k1 v st))) =
    ContextKey.set k2 v (ContextKey.set k1 v st).
Proof.
  unfold ContextKey.set, ContextKey.setContext.
  destruct (ContextKey.boundTo k1), (ContextKey.boundTo k2); simpl; f_equal;
    apply map_eq; intros i; rewrite !lookup_insert; repeat case_decide; reflexivity.
Qed.

End Idempotence.

(** X11.  [hide] and [reveal] are idempotent: a second call in a row
    leaves the widget exactly as the first left it. *)
Theorem hide_reveal_idempotent (s : TerminalChatWidget) :
  hide (hide s) = hide s /\ reveal (reveal s) = reveal s.
Proof.
  split.
  - unfold hide. simpl. rewrite !classList_add_twice, set_both_twice. reflexivity.
  - unfold reveal. simpl. rewrite classList_remove_twice, set_both_twice. reflexivity.
Qed.

Section Focus.

Implicit Types (s : TerminalChatWidget) (o : Op).

Lemma step_focus o s :
  o <> Reveal -> o <> Hide -> activeElement (step o s) = activeElement s.
Proof. intros HR HH. destruct o; try congruence; split_step s; reflexivity. Qed.

Lemma focusFollowsFlags_step o s : focusFollowsFlags s -> focusFollowsFlags (step o s).
Proof.
  intros H. destruct o;
    try (left; split; [reflexivity|];
         destruct (reveal_shown s) as (Hf & Hv & _); split; assumption);
    try (right; split; [reflexivity|];
         destruct (hide_hidden s) as (Hf & Hv & _); split; assumption);
    (match goal with
     | |- focusFollowsFlags (step ?o s) =>
         unfold focusFollowsFlags;
         destruct (visibility_flags s (step o s)) as (_ & -> & ->);
         [apply step_visibility; discriminate|];
         rewrite (step_focus o s) by discriminate; exact H
     end).
Qed.

End Focus.

(** X12.  Focus and flags move together.  [reveal] puts the focus in the
    inline chat and [hide] hands it back to the terminal; no other
    operation calls [focus].  So once either has been called, after any
    run the focus last given by the widget is in the inline chat exactly
    when both flags are true, and with the terminal exactly when both are
    false. *)
Theorem focus_follows_flags (s : TerminalChatWidget) (ops : list Op) :
  focusFollowsFlags (run ops (reveal s)) /\ focusFollowsFlags (run ops (hide s)).
Proof.
  assert (H : forall t, focusFollowsFlags t -> focusFollowsFlags (run ops t)).
  { induction ops as [|o ops IH]; intros t Ht; simpl; [exact Ht|].
    apply IH, focusFollowsFlags_step, Ht. }
  split; apply H.
  - left. split; [reflexivity|]. destruct (reveal_shown s) as (Hf & Hv & _). auto.
  - right. split; [reflexivity|]. destruct (hide_hidden s) as (Hf & Hv & _). auto.
Qed.

(** X13.  [setValue] with a non-empty string writes the input and
    nothing else: the response container keeps its classes (it is neither
    hidden nor shown), and the viewer, the flags and the widget container
    are as before. *)
Theorem setValue_nonempty_keeps_response (v : string) (s : TerminalChatWidget) :
  v <> "" ->
  input (setValue (Some v) s) = v /\
  _responseElement (setValue (Some v) s) = _responseElement s /\
  _responseWidget (setValue (Some v) s) = _responseWidget s /\
  visibility (setValue (Some v) s) = visibility s.
Proof.
  intros Hv. unfold setValue. simpl.
  destruct (String.eqb v "") eqn:E; [apply String.eqb_eq in E; contradiction|].
  simpl. repeat split.
Qed.

Lemma setValue_nonempty_keeps_response_witness :
  "git status" <> "" /\
  _responseElement (setValue (Some "git status") (hide sampleWidget)) =
    _responseElement (hide sampleWidget).
Proof.
  assert (H : "git status" <> "") by discriminate.
  split; [exact H|].
  exact (proj1 (proj2 (setValue_nonempty_keeps_response "git status" (hide sampleWidget) H))).
Defined.

Section Classes.

Implicit Types (s : TerminalChatWidget) (o : Op) (t : string).

Lemma step_other_classes o s t :
  t <> "hide" -> t <> "message" ->
  Dom.contains t (_widgetContainer (step o s)) = Dom.contains t (_widgetContainer s) /\
  Dom.contains t (_responseElement (step o s)) = Dom.contains t (_responseElement s).
Proof.
  intros Hh Hm.
  assert (Hr1 : t ∉ ["hide"]).
  { intros Hin. apply list_elem_of_singleton in Hin. contradiction. }
  assert (Hr2 : t ∉ ["message"; "hide"]).
  { intros Hin. apply elem_of_cons in Hin as [Hin|Hin]; [contradiction|].
    apply list_elem_of_singleton in Hin. contradiction. }
  destruct o; split_step s;
    rewrite ?contains_textContent, ?contains_add_other, ?contains_remove_other
      by assumption;
    split; reflexivity.
Qed.

Lemma step_response_hidden o s :
  responses [o] = [] ->
  hidden (_responseElement s) = true ->
  hidden (_responseElement (step o s)) = true.
Proof.
  intros Ho H. unfold hidden in *.
  destruct o; try discriminate Ho; split_step s; try exact H; apply contains_add.
Qed.

End Classes.

(** X14.  The only classes the widget ever adds or removes are ['hide']
    and ['message']: through every run, any other class is on the widget
    container, and on the response container, exactly if it was there
    before.  In particular the two containers keep the classes the
    constructor gave them. *)
Theorem other_classes_untouched (t : string) (s : TerminalChatWidget) (ops : list Op) :
  t <> "hide" -> t <> "message" ->
  Dom.contains t (_widgetContainer (run ops s)) = Dom.contains t (_widgetContainer s) /\
  Dom.contains t (_responseElement (run ops s)) = Dom.contains t (_responseElement s).
Proof.
  intros Hh Hm. revert s. induction ops as [|o ops IH]; intros s; simpl run; [auto|].
  destruct (IH (step o s)) as [-> ->]. apply step_other_classes; assumption.
Qed.

Lemma other_classes_untouched_witness :
  "terminal-inline-chat" <> "hide" /\ "terminal-inline-chat" <> "message" /\
  Dom.contains "terminal-inline-chat"
    (_widgetContainer (run [Reveal; RenderMessage "hello" 1; Hide] sampleWidget)) = true.
Proof.
  assert (H1 : "terminal-inline-chat" <> "hide") by (intros [=]).
  assert (H2 : "terminal-inline-chat" <> "message") by (intros [=]).
  split; [exact H1|]. split; [exact H2|].
  rewrite (proj1 (other_classes_untouched "terminal-inline-chat" sampleWidget
                    [Reveal; RenderMessage "hello" 1; Hide] H1 H2)).
  reflexivity.
Defined.

(** X15.  [reveal] does not bring the response back: once [hide] has
    hidden the response container it stays hidden through [reveal],
    [cancel], [setValue], [updateProgress], [layout] and resumed
    continuations, until the next render. *)
Theorem response_hidden_until_render (s : TerminalChatWidget) (ops : list Op) :
  responses ops = [] ->
  hidden (_responseElement (run ops (hide s))) = true.
Proof.
  intros Hops.
  assert (H : forall t, hidden (_responseElement t) = true ->
                        hidden (_responseElement (run ops t)) = true).
  { induction ops as [|o ops IH]; intros t Ht; simpl; [exact Ht|].
    rewrite (responses_cons o ops) in Hops. apply app_eq_nil in Hops as [Ho Hrest].
    apply IH; [exact Hrest|]. apply step_response_hidden; assumption. }
  apply H. apply hide_hidden.
Qed.

Lemma response_hidden_until_render_witness :
  responses [Reveal; SetValue (Some "how do I list files"); UpdateProgress None; Resume] = [] /\
  hidden (_responseElement
            (run [Reveal; SetValue (Some "how do I list files"); UpdateProgress None; Resume]
                 (hide sampleWidget))) = true.
Proof.
  split; [reflexivity|].
  exact (response_hidden_until_render sampleWidget
           [Reveal; SetValue (Some "how do I list files"); UpdateProgress None; Resume]
           eq_refl).
Defined.

(** X16.  The synthesized document URI identifies both the terminal and
    the code block: two URIs are equal exactly when the instance ids and
    the code blocks are.  Its scheme is always ['terminal-inline-chat']. *)
Theorem responseUri_injective (i i' : ITerminalInstance) (c c' : string) :
  (responseUri i c = responseUri i' c' <-> instanceId i = instanceId i' /\ c = c') /\
  Model.scheme (responseUri i c) = "terminal-inline-chat" /\
  Model.fragment (responseUri i c) = c.
Proof.
  split; [|split; reflexivity]. split.
  - intros H. split; [eapply responseUri_instance, H|].
    exact (f_equal Model.fragment H).
  - intros [Hi ->]. unfold responseUri. rewrite Hi. reflexivity.
Qed.

Section Composition.

Implicit Types (s : TerminalChatWidget) (e : Dom.HTMLElement) (o : Op).

Lemma classList_remove_add t e :
  Dom.classList_remove [t] (Dom.classList_add t e) = Dom.classList_remove [t] e.
Proof.
  unfold Dom.classList_remove, Dom.classList_add. simpl. f_equal.
  destruct (Dom.contains t e); [reflexivity|].
  rewrite filter_app, filter_cons, decide_False, filter_nil, app_nil_r; [reflexivity|].
  intros Hn. apply Hn, list_elem_of_singleton. reflexivity.
Qed.

(** The later of two writes of both keys wins. *)
Lemma set_both_over k1 k2 v v' st :
  ContextKey.set k2 v (ContextKey.set k1 v (ContextKey.set k2 v' (ContextKey.set k1 v' st))) =
    ContextKey.set k2 v (ContextKey.set k1 v st).
Proof.
  unfold ContextKey.set, ContextKey.setContext.
  destruct (ContextKey.boundTo k1), (ContextKey.boundTo k2); simpl; f_equal;
    apply map_eq; intros i; rewrite !lookup_insert; repeat case_decide; reflexivity.
Qed.

Lemma boundModel_receive c w :
  Editor.boundModel (Editor.receive c w) =
    match c with Editor.SetModel m => Some m | _ => Editor.boundModel w end.
Proof.
  unfold Editor.boundModel, Editor.receive. simpl. rewrite fold_left_app.
  destruct c; reflexivity.
Qed.

Lemma step_instance o s : _instance (step o s) = _instance s.
Proof.
  pose proof (step_wiring o s) as H. unfold wiring in H. injection H as H _ _ _ _. exact H.
Qed.

Lemma step_viewerDocument c0 o s : viewerDocument c0 s -> viewerDocument c0 (step o s).
Proof.
  intros (w & m & Hw & Hu & Hq). unfold viewerDocument. rewrite step_instance.
  destruct o;
    try (exists w, m; split; [exact Hw|]; split; [exact Hu|exact Hq]).
  - exists (Editor.setValue codeBlock w), m.
    split; [unfold_step; rewrite Hw; reflexivity|]. split; [exact Hu|].
    unfold Editor.setValue. rewrite boundModel_receive.
    unfold_step. rewrite Hw. exact Hq.
  - exists w, m. unfold_step. destruct (negb _); auto.
  - destruct Hq as [[Hq Hb] | [Hq Hb]].
    + exists w, m. unfold_step. rewrite Hq. auto.
    + eexists. exists m. unfold_step. rewrite Hq. simpl. rewrite Hw. simpl.
      split; [reflexivity|]. split; [exact Hu|]. left. split; [reflexivity|].
      unfold Editor.layout, Editor.setModel. rewrite !boundModel_receive. reflexivity.
Qed.

Lemma run_viewerDocument c0 ops s : viewerDocument c0 s -> viewerDocument c0 (run ops s).
Proof.
  revert s. induction ops as [|o ops IH]; intros s H; simpl; [exact H|].
  apply IH, step_viewerDocument, H.
Qed.

Lemma first_render_viewerDocument c r s :
  beforeFirstRender s -> viewerDocument c (renderTerminalCommand c r s).
Proof.
  intros (Hw & Hq & _).
  destruct (renderTerminalCommand_first c r s Hw) as (v & m & _ & Hc & H1 & _ & Hq1 & Hu).
  exists v, m. split; [exact H1|].
  assert (Hi : _instance (renderTerminalCommand c r s) = _instance s)
    by apply (step_instance (RenderTerminalCommand c r) s).
  rewrite Hi. split; [exact Hu|]. right. rewrite Hq1, Hq. split; [reflexivity|].
  unfold Editor.boundModel. rewrite Hc. reflexivity.
Qed.

Lemma run_first_document ops s c0 rest :
  beforeFirstRender s -> rendered ops = c0 :: rest -> viewerDocument c0 (run ops s).
Proof.
  revert s. induction ops as [|o ops IH]; intros s Hs Hr; [discriminate Hr|].
  simpl run. rewrite (rendered_cons o ops) in Hr.
  destruct (rendered [o]) as [|c cs] eqn:Ho.
  - apply IH; [apply step_beforeFirstRender; assumption|exact Hr].
  - destruct o; try discriminate Ho. injection Ho as <- <-. injection Hr as <- _.
    apply run_viewerDocument, first_render_viewerDocument, Hs.
Qed.

End Composition.

(** X18.  Hiding and then revealing the widget is revealing it with the
    response container hidden: the widget container, the flags, the
    focus and the input are as after [reveal] alone, and only the
    response container has gained ['hide']. *)
Theorem reveal_after_hide (s : TerminalChatWidget) :
  reveal (hide s) =
    set_responseElement (Dom.classList_add "hide" (_responseElement s)) (reveal s).
Proof.
  unfold reveal, hide, set_responseElement. simpl.
  rewrite classList_remove_add, set_both_over. reflexivity.
Qed.

(** X19.  The viewer of a constructed widget belongs to the first code
    block for good.  After any run in which [renderTerminalCommand] was
    called, the document the viewer is bound to, or the one its pending
    continuation will bind, carries the URI synthesized from the
    terminal's instance id and the first rendered code block; later
    renders reach the viewer through [setValue] only and never rebind
    it. *)
Theorem viewer_document_is_first_code_block
    (keys : TerminalContextKeys) (container : Dom.HTMLElement)
    (instance : ITerminalInstance) (inst : Editor.IInstantiationService)
    (store : ContextKey.Store) (acc : list (string * Z))
    (models : Model.IModelService) (focus : Focus)
    (ops : list Op) (c0 : string) (rest : list string) :
  rendered ops = c0 :: rest ->
  let s := run ops (construct keys container instance inst store acc models focus) in
  exists w m,
    _responseWidget s = Some w /\
    Model.uri m = responseUri instance c0 /\
    ((microtasks s = [] /\ Editor.boundModel w = Some m) \/
     (microtasks s = [Some m] /\ Editor.boundModel w = None)).
Proof.
  intros Hr. cbv zeta.
  set (w0 := construct keys container instance inst store acc models focus).
  assert (H0 : beforeFirstRender w0) by (repeat split).
  destruct (run_first_document ops w0 c0 rest H0 Hr) as (w & m & Hw & Hu & Hq).
  exists w, m. split; [exact Hw|]. split; [|exact Hq].
  rewrite Hu. f_equal.
  pose proof (run_wiring ops w0) as Hwi. unfold wiring in Hwi.
  injection Hwi as Hi _ _ _ _. exact Hi.
Qed.

Lemma viewer_document_is_first_code_block_witness :
  rendered [RenderTerminalCommand "echo hi" 1; RenderTerminalCommand "echo bye" 2; Resume]
    = ["echo hi"; "echo bye"] /\
  exists w m,
    _responseWidget
      (run [RenderTerminalCommand "echo hi" 1; RenderTerminalCommand "echo bye" 2; Resume]
           sampleWidget) = Some w /\
    Model.uri m = responseUri (mkInstance 1) "echo hi".
Proof.
  split; [reflexivity|].
  destruct (viewer_document_is_first_code_block sampleKeys Dom.createElement (mkInstance 1)
              (Editor.mkInstantiation ContextKey.Injected) sampleStore [] [] FocusTerminal
              [RenderTerminalCommand "echo hi" 1; RenderTerminalCommand "echo bye" 2; Resume]
              "echo hi" ["echo bye"] eq_refl) as (w & m & Hw & Hu & _).
  exists w, m. split; [exact Hw|exact Hu].
Defined.

(** X20.  The focus tracker a caller obtains from [focusTracker] is, at
    any time, the one the constructor created over the widget container;
    no operation replaces it, and [layout] changes nothing whatever the
    width. *)
Theorem focusTracker_is_fixed
    (keys : TerminalContextKeys) (container : Dom.HTMLElement)
    (instance : ITerminalInstance) (inst : Editor.IInstantiationService)
    (store : ContextKey.Store) (acc : list (string * Z))
    (models : Model.IModelService) (focus : Focus) (ops : list Op) (width : Z) :
  let s := run ops (construct keys container instance inst store acc models focus) in
  focusTracker s = Dom.trackFocus Dom.WidgetContainer /\
  focusTracker (layout width s) = focusTracker s /\
  run (ops ++ [DoLayout width])
      (construct keys container instance inst store acc models focus) = s.
Proof.
  cbv zeta.
  set (w0 := construct keys container instance inst store acc models focus).
  split; [|split; [reflexivity|]].
  - pose proof (run_wiring ops w0) as H. unfold wiring in H.
    injection H as _ _ _ _ H. exact H.
  - generalize w0. induction ops as [|o ops IH]; intros t; simpl; [reflexivity|apply IH].
Qed.
